(** * AI-UI backend: the in-memory model registry

    A shallow embedding of [backend/AIUI.py] and [backend/app.py].  Both
    files define the same two classes, [AIModel] and [ModelManager], and
    the same HTTP handlers on top of them.

    Python objects are references: an [AIModel] instance and the [dict]
    it keeps in [self.metrics] live in a store and are reached through
    locations, so that a value handed to a caller aliases what the
    registry holds.  Operations are written in a state-and-exception
    monad over that store.

    Three effects of the source are not part of the state and are taken
    as follows:
    - [uuid.uuid4()] and [random.uniform] draw from outside the program;
      each draw is an argument of the operation that makes it;
    - floats are taken as exact rationals ([Q]);
    - [print] and [time.sleep] touch neither the store nor the registry
      and are left out. *)

From Stdlib Require Import String List Bool Arith ZArith QArith Qround Lia Lqa.
Import ListNotations.
Local Close Scope Q_scope.
Local Open Scope string_scope.
Local Open Scope list_scope.

(** ** Python's [dict]: insertion-ordered, one binding per key *)

Definition PyDict (V : Type) : Type := list (string * V).

(** [d.get(k)]: [None] when the key is absent. *)
Fixpoint dict_get {V : Type} (k : string) (d : PyDict V) : option V :=
  match d with
  | [] => None
  | (k', v) :: d' => if String.eqb k k' then Some v else dict_get k d'
  end.

(** [d[k] = v]: an existing key keeps its position, a new key goes last. *)
Fixpoint dict_set {V : Type} (k : string) (v : V) (d : PyDict V) : PyDict V :=
  match d with
  | [] => [(k, v)]
  | (k', v') :: d' =>
      if String.eqb k k' then (k', v) :: d' else (k', v') :: dict_set k v d'
  end.

(** [k in d] *)
Definition dict_contains {V : Type} (k : string) (d : PyDict V) : bool :=
  match dict_get k d with Some _ => true | None => false end.

Definition dict_keys {V : Type} (d : PyDict V) : list string := map fst d.

(** [d.values()] *)
Definition dict_values {V : Type} (d : PyDict V) : list V := map snd d.

(** Truth value of a [dict]: empty is false. *)
Definition dict_truthy {V : Type} (d : PyDict V) : bool :=
  match d with [] => false | _ :: _ => true end.

(** Truth value of a [str]: empty is false. *)
Definition str_truthy (s : string) : bool := negb (String.eqb s "").

(** ** Numbers *)

(** Nearest integer, ties to the even one. *)
Definition round_half_even (x : Q) : Z :=
  let f := Qfloor x in
  match Qcompare (x - inject_Z f) (1 # 2) with
  | Lt => f
  | Gt => (f + 1)%Z
  | Eq => if Z.even f then f else (f + 1)%Z
  end.

(** [round(x, ndigits)] for [ndigits >= 0]. *)
Definition py_round (x : Q) (ndigits : nat) : Q :=
  let p := (10 ^ Z.of_nat ndigits)%Z in
  Qmake (round_half_even (x * inject_Z p)) (Z.to_pos p).

(** [random.uniform(a, b)] is [a + (b - a) * self.random()]; [rnd] is the
    value of [random()], which lies in [[0, 1)]. *)
Definition uniform (a b : Q) (rnd : Q) : Q := (a + (b - a) * rnd)%Q.

(** The value [fine_tune_model] stores under ["accuracy"]:
    [round(random.uniform(0.80, 0.99), 3)]. *)
Definition accuracy (rnd : Q) : Q :=
  py_round (uniform (80 # 100) (99 # 100) rnd) 3.

(** ** The store *)

Definition loc : Type := nat.

(** An [AIModel] instance; [metrics] holds a reference to a [dict]. *)
Record AIModel : Type := mkAIModel {
  model_id : string;
  name : string;
  version : string;
  metrics : loc;
  deployed : bool
}.

(** Instances and dicts by location, the next free location of each, and
    [manager.models], the registry's own dict from id to instance. *)
Record State : Type := mkState {
  objects : loc -> AIModel;
  next_object : loc;
  dicts : loc -> PyDict Q;
  next_dict : loc;
  models : PyDict loc
}.

Definition upd {A : Type} (l : loc) (a : A) (f : loc -> A) : loc -> A :=
  fun l' => if Nat.eqb l' l then a else f l'.

(** The store at process start, before [manager = ModelManager()]. *)
Definition empty_state : State :=
  mkState (fun _ => mkAIModel "" "" "" 0 false) 0 (fun _ => []) 0 [].

(** ** Computations: state passing with exceptions *)

Inductive Exn : Type :=
| ValueError (msg : string)
| KeyError (key : string).

(** A raised exception comes with the state at the point of the raise. *)
Definition M (A : Type) : Type := State -> (Exn + A) * State.

Definition ret {A : Type} (a : A) : M A := fun s => (inr a, s).

Definition bind {A B : Type} (c : M A) (k : A -> M B) : M B :=
  fun s =>
    match c s with
    | (inr a, s') => k a s'
    | (inl e, s') => (inl e, s')
    end.

Definition raise {A : Type} (e : Exn) : M A := fun s => (inl e, s).

(** [try: c  except Exception as e: h e] *)
Definition try_except {A : Type} (c : M A) (h : Exn -> M A) : M A :=
  fun s =>
    match c s with
    | (inr a, s') => (inr a, s')
    | (inl e, s') => h e s'
    end.

Declare Scope monad_scope.
Delimit Scope monad_scope with monad.
Notation "x <- c ;; k" := (bind c (fun x => k))
  (at level 100, c at next level, right associativity) : monad_scope.
Notation "c ;; k" := (bind c (fun _ => k))
  (at level 100, right associativity) : monad_scope.
Local Open Scope monad_scope.

(** Result and final state of a run. *)
Definition result {A : Type} (r : (Exn + A) * State) : Exn + A := fst r.
Definition final {A : Type} (r : (Exn + A) * State) : State := snd r.

(** A fresh [dict] object holding [d]. *)
Definition new_dict (d : PyDict Q) : M loc :=
  fun s =>
    (inr (next_dict s),
     mkState (objects s) (next_object s)
             (upd (next_dict s) d (dicts s)) (S (next_dict s)) (models s)).

(** A fresh [AIModel] instance. *)
Definition new_object (o : AIModel) : M loc :=
  fun s =>
    (inr (next_object s),
     mkState (upd (next_object s) o (objects s)) (S (next_object s))
             (dicts s) (next_dict s) (models s)).

(** [l.field] *)
Definition getattr {A : Type} (l : loc) (field : AIModel -> A) : M A :=
  fun s => (inr (field (objects s l)), s).

Definition with_deployed (b : bool) (o : AIModel) : AIModel :=
  mkAIModel (model_id o) (name o) (version o) (metrics o) b.

Definition with_version (v : string) (o : AIModel) : AIModel :=
  mkAIModel (model_id o) (name o) v (metrics o) (deployed o).

Definition set_object (l : loc) (f : AIModel -> AIModel) : M unit :=
  fun s =>
    (inr tt,
     mkState (upd l (f (objects s l)) (objects s)) (next_object s)
             (dicts s) (next_dict s) (models s)).

(** [l.deployed = b] *)
Definition set_deployed (l : loc) (b : bool) : M unit :=
  set_object l (with_deployed b).

(** [l.version = v] *)
Definition set_version (l : loc) (v : string) : M unit :=
  set_object l (with_version v).

(** The contents of the dict at [d]. *)
Definition dict_contents (d : loc) : M (PyDict Q) :=
  fun s => (inr (dicts s d), s).

(** Any in-place change of the dict at [d]. *)
Definition dict_mutate (d : loc) (f : PyDict Q -> PyDict Q) : M unit :=
  fun s =>
    (inr tt,
     mkState (objects s) (next_object s)
             (upd d (f (dicts s d)) (dicts s)) (next_dict s) (models s)).

(** [d[k] = v] on the dict object at [d]. *)
Definition dict_setitem (d : loc) (k : string) (v : Q) : M unit :=
  dict_mutate d (dict_set k v).

(** [d[k]] on a dict value: [KeyError] when the key is absent. *)
Definition dict_getitem {V : Type} (d : PyDict V) (k : string) : M V :=
  match dict_get k d with
  | Some v => ret v
  | None => raise (KeyError k)
  end.

(** [self.models] *)
Definition get_models : M (PyDict loc) := fun s => (inr (models s), s).

Definition set_models (ms : PyDict loc) : M unit :=
  fun s =>
    (inr tt,
     mkState (objects s) (next_object s) (dicts s) (next_dict s) ms).

(** [self.models[k] = l] *)
Definition models_setitem (k : string) (l : loc) : M unit :=
  fun s =>
    (inr tt,
     mkState (objects s) (next_object s) (dicts s) (next_dict s)
             (dict_set k l (models s))).

(** ** Requests and responses *)

(** [FineTuneRequest]: [tuning_params] is a [Dict[str, str]]. *)
Record FineTuneRequest : Type := mkFineTuneRequest {
  req_model_id : string;
  req_tuning_params : PyDict string
}.

(** The fields a handler echoes for one model; [j_metrics] is the
    contents of the metrics dict when the response is built. *)
Record ModelJson : Type := mkModelJson {
  j_model_id : string;
  j_name : string;
  j_version : string;
  j_deployed : bool;
  j_metrics : PyDict Q
}.

Definition model_json (l : loc) : M ModelJson :=
  o <- getattr l (fun o => o) ;;
  m <- dict_contents (metrics o) ;;
  ret (mkModelJson (model_id o) (name o) (version o) (deployed o) m).

Fixpoint for_each {A B : Type} (f : A -> M B) (l : list A) : M (list B) :=
  match l with
  | [] => ret []
  | a :: l' => b <- f a ;; bs <- for_each f l' ;; ret (b :: bs)
  end.

(** A task queued on [BackgroundTasks]: it runs after the response has
    been sent and makes its random draw then. *)
Definition Task : Type := Q -> M unit.
Definition BackgroundTasks : Type := list Task.

(** [background_tasks.add_task(t)] *)
Definition add_task (t : Task) (bt : BackgroundTasks) : BackgroundTasks :=
  bt ++ [t].

(** [HTTPException(status_code=..., detail=...)] *)
Record HTTPException : Type := mkHTTPException {
  status_code : nat;
  detail : string
}.

(** What a handler hands to the framework: the exception it raises for
    the client, or the body of its response. *)
Definition Response (A : Type) : Type := (HTTPException + A)%type.

(** [raise HTTPException(status_code=code, detail=msg)] *)
Definition http_error {A : Type} (code : nat) (msg : string)
    : M (Response A) :=
  ret (inl (mkHTTPException code msg)).

(** [try: c  except ValueError as e: h (str(e))]; an exception of another
    class passes through.  [str] of a [ValueError] made from one string
    is that string. *)
Definition try_except_ValueError {A : Type} (c : M A) (h : string -> M A)
    : M A :=
  fun s =>
    match c s with
    | (inr a, s') => (inr a, s')
    | (inl (ValueError msg), s') => h msg s'
    | (inl (KeyError k), s') => (inl (KeyError k), s')
    end.

(** The body of a successful [POST /deploy/{model_id}]. *)
Record DeployJson : Type := mkDeployJson {
  message : string;
  d_model_id : string;
  d_name : string;
  d_version : string;
  d_deployed : bool
}.

(** The body of a successful [GET /metrics/{model_id}]. *)
Record MetricsJson : Type := mkMetricsJson {
  m_model_id : string;
  m_metrics : PyDict Q
}.

(** ** [backend/AIUI.py] *)

Module AIUI.

(** [AIModel.__init__]:
    [self.metrics = metrics if metrics is not None else {}] *)
Definition AIModel_init (model_id name version : string)
    (metrics : option loc) : M loc :=
  m <- match metrics with
       | Some d => ret d
       | None => new_dict []
       end ;;
  new_object (mkAIModel model_id name version m false).

Module ModelManager.

(** In the tests [if model:] and [if not model:] below, [model] is what
    [dict.get] returned: an [AIModel] instance, which is true (the class
    defines neither [__bool__] nor [__len__]), or [None], which is
    false. *)

(** [uuid4] is the value of [str(uuid.uuid4())]. *)
Definition add_model (uuid4 : string) (name version : string) : M loc :=
  let model_id := uuid4 in
  model <- AIModel_init model_id name version None ;;
  models_setitem model_id model ;;
  ret model.

Definition list_models : M (list loc) :=
  ms <- get_models ;; ret (dict_values ms).

Definition get_model (model_id : string) : M (option loc) :=
  ms <- get_models ;; ret (dict_get model_id ms).

Definition deploy_model (model_id : string) : M loc :=
  model <- get_model model_id ;;
  match model with
  | Some m => set_deployed m true ;; ret m
  | None => raise (ValueError "Model not found")
  end.

(** [rnd] is the value of [random()] inside [random.uniform]. *)
Definition fine_tune_model (rnd : Q) (model_id : string)
    (tuning_params : PyDict string) : M loc :=
  model <- get_model model_id ;;
  match model with
  | None => raise (ValueError "Model not found")
  | Some m =>
      d <- getattr m metrics ;;
      dict_setitem d "accuracy"
        (py_round (uniform (80 # 100) (99 # 100) rnd) 3) ;;
      let new_version := dict_get "new_version" tuning_params in
      match new_version with
      | Some v => if str_truthy v then set_version m v else ret tt
      | None => ret tt
      end ;;
      ret m
  end.

Definition get_metrics (model_id : string) : M loc :=
  model <- get_model model_id ;;
  match model with
  | Some m => getattr m metrics
  | None => raise (ValueError "Model not found")
  end.

(** [ModelManager.__init__]; [u1] and [u2] are the two ids drawn. *)
Definition init (u1 u2 : string) : M unit :=
  set_models [] ;;
  add_model u1 "Model A" "1.0" ;;
  add_model u2 "Model B" "1.0" ;;
  ret tt.

End ModelManager.

(** [GET /models] *)
Definition list_models : M (list ModelJson) :=
  ms <- ModelManager.list_models ;; for_each model_json ms.

(** [POST /finetune] *)
Definition finetune_model (request : FineTuneRequest)
    (background_tasks : BackgroundTasks)
    : M (PyDict string * BackgroundTasks) :=
  let fine_tune_task : Task := fun rnd =>
    try_except
      (ModelManager.fine_tune_model rnd (req_model_id request)
         (req_tuning_params request) ;; ret tt)
      (fun e => ret tt) in
  ret ([("message", "Fine-tuning started in background.")],
       add_task fine_tune_task background_tasks).

(** [GET /models/{model_id}] *)
Definition get_model (model_id : string) : M (Response ModelJson) :=
  model <- ModelManager.get_model model_id ;;
  match model with
  | None => http_error 404 "Model not found"
  | Some m => j <- model_json m ;; ret (inr j)
  end.

(** [POST /deploy/{model_id}] *)
Definition deploy_model (model_id : string) : M (Response DeployJson) :=
  try_except_ValueError
    (model <- ModelManager.deploy_model model_id ;;
     o <- getattr model (fun o => o) ;;
     let '(mkAIModel id n v _ dep) := o in
     ret (inr (mkDeployJson ("Model '" ++ n ++ "' deployed successfully.")
                            id n v dep)))
    (fun e => http_error 404 e).

(** [GET /metrics/{model_id}] *)
Definition get_metrics (model_id : string) : M (Response MetricsJson) :=
  try_except_ValueError
    (metrics <- ModelManager.get_metrics model_id ;;
     c <- dict_contents metrics ;;
     ret (inr (mkMetricsJson model_id c)))
    (fun e => http_error 404 e).

End AIUI.

(** ** [backend/app.py] *)

Module App.

(** [AIModel.__init__]: [self.metrics = metrics or {}] *)
Definition AIModel_init (model_id name version : string)
    (metrics : option loc) : M loc :=
  m <- match metrics with
       | Some d =>
           c <- dict_contents d ;;
           if dict_truthy c then ret d else new_dict []
       | None => new_dict []
       end ;;
  new_object (mkAIModel model_id name version m false).

Module ModelManager.

Definition add_model (uuid4 : string) (name version : string) : M loc :=
  let new_id := uuid4 in
  model <- AIModel_init new_id name version None ;;
  models_setitem new_id model ;;
  ret model.

Definition list_models : M (list loc) :=
  ms <- get_models ;; ret (dict_values ms).

Definition get_model (model_id : string) : M (option loc) :=
  ms <- get_models ;; ret (dict_get model_id ms).

Definition deploy_model (model_id : string) : M loc :=
  model <- get_model model_id ;;
  match model with
  | Some m => set_deployed m true ;; ret m
  | None => raise (ValueError "Model not found")
  end.

Definition fine_tune_model (rnd : Q) (model_id : string)
    (tuning_params : PyDict string) : M loc :=
  model <- get_model model_id ;;
  match model with
  | None => raise (ValueError "Model not found")
  | Some m =>
      d <- getattr m metrics ;;
      dict_setitem d "accuracy"
        (py_round (uniform (80 # 100) (99 # 100) rnd) 3) ;;
      (if dict_contains "new_version" tuning_params
       then v <- dict_getitem tuning_params "new_version" ;;
            set_version m v
       else ret tt) ;;
      ret m
  end.

Definition get_metrics (model_id : string) : M loc :=
  model <- get_model model_id ;;
  match model with
  | Some m => getattr m metrics
  | None => raise (ValueError "Model not found")
  end.

Definition init (u1 u2 : string) : M unit :=
  set_models [] ;;
  add_model u1 "Model A" "1.0" ;;
  add_model u2 "Model B" "1.0" ;;
  ret tt.

End ModelManager.

(** [GET /models] *)
Definition get_all_models : M (list ModelJson) :=
  ms <- ModelManager.list_models ;; for_each model_json ms.

(** [POST /finetune] *)
Definition start_fine_tuning (request : FineTuneRequest)
    (background_tasks : BackgroundTasks)
    : M (PyDict string * BackgroundTasks) :=
  let background_task : Task := fun rnd =>
    try_except
      (ModelManager.fine_tune_model rnd (req_model_id request)
         (req_tuning_params request) ;; ret tt)
      (fun err => ret tt) in
  ret ([("message", "Fine-tuning started in the background.")],
       add_task background_task background_tasks).

(** [GET /models/{model_id}] *)
Definition get_model_details (model_id : string) : M (Response ModelJson) :=
  model <- ModelManager.get_model model_id ;;
  match model with
  | None => http_error 404 "Model not found"
  | Some m => j <- model_json m ;; ret (inr j)
  end.

(** [POST /deploy/{model_id}] *)
Definition deploy_model (model_id : string) : M (Response DeployJson) :=
  try_except_ValueError
    (model <- ModelManager.deploy_model model_id ;;
     o <- getattr model (fun o => o) ;;
     let '(mkAIModel id n v _ dep) := o in
     ret (inr (mkDeployJson ("Model '" ++ n ++ "' deployed successfully.")
                            id n v dep)))
    (fun err => http_error 404 err).

(** [GET /metrics/{model_id}] *)
Definition get_model_metrics (model_id : string)
    : M (Response MetricsJson) :=
  try_except_ValueError
    (metrics <- ModelManager.get_metrics model_id ;;
     c <- dict_contents metrics ;;
     ret (inr (mkMetricsJson model_id c)))
    (fun err => http_error 404 err).

End App.

(** ** Both files behind one name *)

Inductive Impl : Type := AIUI_py | app_py.

Definition add_model (i : Impl) : string -> string -> string -> M loc :=
  match i with
  | AIUI_py => AIUI.ModelManager.add_model
  | app_py => App.ModelManager.add_model
  end.

Definition list_models (i : Impl) : M (list loc) :=
  match i with
  | AIUI_py => AIUI.ModelManager.list_models
  | app_py => App.ModelManager.list_models
  end.

Definition get_model (i : Impl) : string -> M (option loc) :=
  match i with
  | AIUI_py => AIUI.ModelManager.get_model
  | app_py => App.ModelManager.get_model
  end.

Definition deploy_model (i : Impl) : string -> M loc :=
  match i with
  | AIUI_py => AIUI.ModelManager.deploy_model
  | app_py => App.ModelManager.deploy_model
  end.

Definition fine_tune_model (i : Impl)
    : Q -> string -> PyDict string -> M loc :=
  match i with
  | AIUI_py => AIUI.ModelManager.fine_tune_model
  | app_py => App.ModelManager.fine_tune_model
  end.

Definition get_metrics (i : Impl) : string -> M loc :=
  match i with
  | AIUI_py => AIUI.ModelManager.get_metrics
  | app_py => App.ModelManager.get_metrics
  end.

Definition ModelManager_init (i : Impl) : string -> string -> M unit :=
  match i with
  | AIUI_py => AIUI.ModelManager.init
  | app_py => App.ModelManager.init
  end.

(** [GET /models], the registry as a client sees it. *)
Definition list_endpoint (i : Impl) : M (list ModelJson) :=
  match i with
  | AIUI_py => AIUI.list_models
  | app_py => App.get_all_models
  end.

(** [POST /finetune] *)
Definition finetune_endpoint (i : Impl)
    : FineTuneRequest -> BackgroundTasks
      -> M (PyDict string * BackgroundTasks) :=
  match i with
  | AIUI_py => AIUI.finetune_model
  | app_py => App.start_fine_tuning
  end.

(** The process after [manager = ModelManager()]. *)
Definition boot (i : Impl) (u1 u2 : string) : State :=
  final (ModelManager_init i u1 u2 empty_state).

(** The metrics mapping of the instance at [l]. *)
Definition metrics_of (s : State) (l : loc) : PyDict Q :=
  dicts s (metrics (objects s l)).

(** Two states with the same store and the same registry. *)
Definition state_eq (s t : State) : Prop :=
  (forall l, objects s l = objects t l) /\
  next_object s = next_object t /\
  (forall l, dicts s l = dicts t l) /\
  next_dict s = next_dict t /\
  models s = models t.

(** The store after the accuracy has been written to [m]'s metrics. *)
Definition tuned (rnd : Q) (m : loc) (s : State) : State :=
  mkState (objects s) (next_object s)
          (upd (metrics (objects s m))
               (dict_set "accuracy" (accuracy rnd) (metrics_of s m))
               (dicts s))
          (next_dict s) (models s).

(** The store after [m.version = v]. *)
Definition reversioned (v : string) (m : loc) (s : State) : State :=
  mkState (upd m (with_version v (objects s m)) (objects s))
          (next_object s) (dicts s) (next_dict s) (models s).

(** The store after [add_model]: a new empty dict, a new instance that
    refers to it, and the instance bound to its id in the registry. *)
Definition created (u n v : string) (s : State) : State :=
  mkState (upd (next_object s) (mkAIModel u n v (next_dict s) false)
               (objects s))
          (S (next_object s))
          (upd (next_dict s) [] (dicts s))
          (S (next_dict s))
          (dict_set u (next_object s) (models s)).



(** What [model_json] reads of the instance at [l] in state [s]. *)
Definition snapshot (s : State) (l : loc) : ModelJson :=
  mkModelJson (model_id (objects s l)) (name (objects s l))
              (version (objects s l)) (deployed (objects s l))
              (metrics_of s l).

(** Every instance the registry holds, and its metrics dict, has been
    allocated; Python keeps this by construction. *)
Definition allocated (s : State) : Prop :=
  Forall (fun l => l < next_object s /\ metrics (objects s l) < next_dict s)
         (dict_values (models s)).

(** One call on the registry, with the draws it makes. *)
Inductive Op : Type :=
| Create (uuid4 name version : string)
| List
| Get (model_id : string)
| Deploy (model_id : string)
| FineTune (rnd : Q) (model_id : string) (tuning_params : PyDict string)
| GetMetrics (model_id : string).

(** The state a call leaves, whether it returns or raises. *)
Definition run_op (i : Impl) (op : Op) (s : State) : State :=
  match op with
  | Create u n v => final (add_model i u n v s)
  | List => final (list_models i s)
  | Get id => final (get_model i id s)
  | Deploy id => final (deploy_model i id s)
  | FineTune rnd id tp => final (fine_tune_model i rnd id tp s)
  | GetMetrics id => final (get_metrics i id s)
  end.

(** The exception a call raises, if any. *)
Definition op_error (i : Impl) (op : Op) (s : State) : option Exn :=
  let err {A : Type} (r : Exn + A) : option Exn :=
    match r with inl e => Some e | inr _ => None end in
  match op with
  | Create u n v => err (result (add_model i u n v s))
  | List => err (result (list_models i s))
  | Get id => err (result (get_model i id s))
  | Deploy id => err (result (deploy_model i id s))
  | FineTune rnd id tp => err (result (fine_tune_model i rnd id tp s))
  | GetMetrics id => err (result (get_metrics i id s))
  end.

(** The id drawn by [uuid4] is not one already in use. *)
Definition fresh_draw (op : Op) (s : State) : Prop :=
  match op with
  | Create u _ _ => dict_get u (models s) = None
  | _ => True
  end.

(** What every call is to keep of the records present before it. *)
Definition records_kept (s s' : State) : Prop :=
  forall id l,
    dict_get id (models s) = Some l ->
    dict_get id (models s') = Some l /\
    model_id (objects s' l) = model_id (objects s l) /\
    name (objects s' l) = name (objects s l) /\
    (deployed (objects s l) = true -> deployed (objects s' l) = true) /\
    (forall k, dict_contains k (metrics_of s l) = true ->
               dict_contains k (metrics_of s' l) = true).


(** The body of the fine-tune endpoint's response. *)
Definition started_message (i : Impl) : PyDict string :=
  match i with
  | AIUI_py => [("message", "Fine-tuning started in background.")]
  | app_py => [("message", "Fine-tuning started in the background.")]
  end.

(** ** The other handlers and the life of a registry *)

Definition AIModel_init (i : Impl)
    : string -> string -> string -> option loc -> M loc :=
  match i with
  | AIUI_py => AIUI.AIModel_init
  | app_py => App.AIModel_init
  end.

(** [GET /models/{model_id}] *)
Definition get_endpoint (i : Impl) : string -> M (Response ModelJson) :=
  match i with
  | AIUI_py => AIUI.get_model
  | app_py => App.get_model_details
  end.

(** [POST /deploy/{model_id}] *)
Definition deploy_endpoint (i : Impl) : string -> M (Response DeployJson) :=
  match i with
  | AIUI_py => AIUI.deploy_model
  | app_py => App.deploy_model
  end.

(** [GET /metrics/{model_id}] *)
Definition metrics_endpoint (i : Impl)
    : string -> M (Response MetricsJson) :=
  match i with
  | AIUI_py => AIUI.get_metrics
  | app_py => App.get_model_metrics
  end.

(** The 404 every handler answers for an id it does not find. *)
Definition not_found : HTTPException := mkHTTPException 404 "Model not found".

(** The registry as its clients see it: each id with the fields of its
    record, in the registry's order. *)
Definition registry_view (s : State) : PyDict ModelJson :=
  map (fun kl => (fst kl, snapshot s (snd kl))) (models s).

(** A record's fields after [deployed = True]. *)
Definition json_deployed (j : ModelJson) : ModelJson :=
  mkModelJson (j_model_id j) (j_name j) (j_version j) true (j_metrics j).


(** The version [fine_tune_model] assigns, if it assigns one. *)
Definition version_to_set (i : Impl) (tp : PyDict string) : option string :=
  match i with
  | AIUI_py =>
      match dict_get "new_version" tp with
      | Some v => if str_truthy v then Some v else None
      | None => None
      end
  | app_py => dict_get "new_version" tp
  end.


(** No two ids share an instance, no two instances share a metrics dict,
    every instance is stored under its own id, and all are allocated. *)
Definition well_formed (s : State) : Prop :=
  allocated s /\
  NoDup (dict_keys (models s)) /\
  NoDup (dict_values (models s)) /\
  NoDup (map (fun l => metrics (objects s l)) (dict_values (models s))) /\
  Forall (fun kl => model_id (objects s (snd kl)) = fst kl) (models s).

(** A sequence of calls, one after the other. *)
Fixpoint run_ops (i : Impl) (ops : list Op) (s : State) : State :=
  match ops with
  | [] => s
  | op :: ops' => run_ops i ops' (run_op i op s)
  end.

(** Every id drawn along the sequence is unused when it is drawn. *)
Fixpoint fresh_draws (i : Impl) (ops : list Op) (s : State) : Prop :=
  match ops with
  | [] => True
  | op :: ops' => fresh_draw op s /\ fresh_draws i ops' (run_op i op s)
  end.

(** The value of [random()] in a fine-tune lies in [[0, 1)]. *)
Definition unit_draw (op : Op) : Prop :=
  match op with
  | FineTune rnd _ _ => (0 <= rnd)%Q /\ (rnd < 1)%Q
  | _ => True
  end.

(** A metrics mapping with no entry, or with the one entry ["accuracy"]
    between 0.80 and 0.99. *)
Definition metrics_shape (m : PyDict Q) : Prop :=
  m = [] \/
  exists a : Q, m = [("accuracy", a)] /\ (80 # 100 <= a)%Q /\ (a <= 99 # 100)%Q.

(** * Properties *)

(** ** Dictionaries *)

Section DictFacts.
Context {V : Type}.
Implicit Types (d : PyDict V) (k : string) (v : V).

Lemma dict_get_set_eq k v d : dict_get k (dict_set k v d) = Some v.
Proof.
  induction d as [|[k' v'] d IH]; simpl.
  - now rewrite String.eqb_refl.
  - destruct (String.eqb k k') eqn:E; simpl; rewrite E; auto.
Qed.

Lemma dict_get_set_ne k k' v d :
  k <> k' -> dict_get k' (dict_set k v d) = dict_get k' d.
Proof.
  intros Hne. induction d as [|[k0 v0] d IH]; simpl.
  - destruct (String.eqb k' k) eqn:E; auto.
    apply String.eqb_eq in E. congruence.
  - destruct (String.eqb k k0) eqn:E; simpl.
    + apply String.eqb_eq in E. subst k0.
      destruct (String.eqb k' k) eqn:E'; auto.
      apply String.eqb_eq in E'. congruence.
    + now rewrite IH.
Qed.

Lemma dict_get_keys_None k d :
  dict_get k d = None <-> ~ In k (dict_keys d).
Proof.
  induction d as [|[k' v'] d IH]; simpl.
  - tauto.
  - destruct (String.eqb k k') eqn:E.
    + apply String.eqb_eq in E. subst. split; [discriminate | tauto].
    + apply String.eqb_neq in E. rewrite IH. split.
      * intros H [H1 | H1]; [congruence | tauto].
      * tauto.
Qed.

Lemma dict_set_fresh k v d :
  dict_get k d = None -> dict_set k v d = d ++ [(k, v)].
Proof.
  induction d as [|[k' v'] d IH]; simpl; auto.
  destruct (String.eqb k k'); [discriminate |].
  intros H. now rewrite IH.
Qed.

Lemma dict_keys_set_present k v d :
  dict_get k d <> None -> dict_keys (dict_set k v d) = dict_keys d.
Proof.
  induction d as [|[k' v'] d IH]; simpl.
  - congruence.
  - destruct (String.eqb k k'); simpl; auto.
    intros H. now rewrite IH.
Qed.

Lemma dict_contains_set k k' v d :
  dict_contains k' d = true -> dict_contains k' (dict_set k v d) = true.
Proof.
  unfold dict_contains. intros H.
  destruct (string_dec k k') as [-> | Hne].
  - now rewrite dict_get_set_eq.
  - now rewrite dict_get_set_ne.
Qed.

Lemma dict_get_In k v d : dict_get k d = Some v -> In (k, v) d.
Proof.
  induction d as [|[k' v'] d IH]; simpl; [discriminate |].
  destruct (String.eqb k k') eqn:E.
  - apply String.eqb_eq in E. intros [= ->]. subst. now left.
  - intros H. right. auto.
Qed.

Lemma dict_In_get k v d :
  NoDup (dict_keys d) -> In (k, v) d -> dict_get k d = Some v.
Proof.
  induction d as [|[k' v'] d IH]; simpl; [tauto |].
  intros Hnd [[= -> ->] | Hin].
  - now rewrite String.eqb_refl.
  - inversion Hnd as [|? ? Hnotin Hnd']; subst.
    destruct (String.eqb k k') eqn:E.
    + apply String.eqb_eq in E. subst k'. exfalso. apply Hnotin.
      change k with (fst (k, v)). now apply in_map.
    + auto.
Qed.

End DictFacts.

(** ** Rounding and the accuracy draw *)

Lemma round_half_even_bounds (x : Q) (a b : Z) :
  (inject_Z a <= x)%Q -> (x <= inject_Z b)%Q ->
  (a <= round_half_even x <= b)%Z.
Proof.
  intros Ha Hb.
  assert (Hfa : (a <= Qfloor x)%Z).
  { rewrite <- (Qfloor_Z a). now apply Qfloor_resp_le. }
  assert (Hfb : (Qfloor x <= b)%Z).
  { rewrite <- (Qfloor_Z b). now apply Qfloor_resp_le. }
  assert (Hfx : (inject_Z (Qfloor x) <= x)%Q) by apply Qfloor_le.
  unfold round_half_even.
  destruct (Z.eq_dec (Qfloor x) b) as [Heq | Hne].
  - assert (Hlt : (x - inject_Z (Qfloor x) < 1 # 2)%Q).
    { rewrite Heq. apply Qle_lt_trans with (y := 0%Q); [| reflexivity].
      apply Qle_minus_iff in Hb. apply Qle_minus_iff.
      setoid_replace (0 + - (x - inject_Z b))%Q
        with (inject_Z b + - x)%Q by ring. exact Hb. }
    rewrite (proj1 (Qlt_alt _ _) Hlt). lia.
  - destruct (Qcompare _ _); [destruct (Z.even _) | |]; lia.
Qed.

Lemma uniform_bounds (a b rnd : Q) :
  (a <= b)%Q -> (0 <= rnd)%Q -> (rnd <= 1)%Q ->
  (a <= uniform a b rnd)%Q /\ (uniform a b rnd <= b)%Q.
Proof.
  intros Hab H0 H1. unfold uniform.
  assert (Hd : (0 <= b - a)%Q).
  { apply Qle_minus_iff in Hab. exact Hab. }
  split.
  - apply Qle_trans with (y := (a + 0)%Q).
    + rewrite Qplus_0_r. apply Qle_refl.
    + apply Qplus_le_r. apply Qmult_le_0_compat; assumption.
  - apply Qle_trans with (y := (a + (b - a) * 1)%Q).
    + apply Qplus_le_r.
      rewrite (Qmult_comm (b - a) rnd), (Qmult_comm (b - a) 1).
      apply Qmult_le_compat_r; assumption.
    + setoid_replace (a + (b - a) * 1)%Q with b by ring. apply Qle_refl.
Qed.

Lemma accuracy_thousandths (rnd : Q) :
  accuracy rnd
  = Qmake (round_half_even
             (uniform (80 # 100) (99 # 100) rnd * inject_Z 1000)) 1000.
Proof. reflexivity. Qed.

Lemma accuracy_range (rnd : Q) :
  (0 <= rnd)%Q -> (rnd < 1)%Q ->
  (80 # 100 <= accuracy rnd)%Q /\ (accuracy rnd <= 99 # 100)%Q.
Proof.
  intros H0 H1. rewrite accuracy_thousandths.
  destruct (uniform_bounds (80 # 100) (99 # 100) rnd) as [Hl Hu];
    [discriminate | assumption | now apply Qlt_le_weak |].
  set (u := uniform (80 # 100) (99 # 100) rnd) in *.
  assert (Hb : (800 <= round_half_even (u * inject_Z 1000) <= 990)%Z).
  { apply round_half_even_bounds.
    - apply Qle_trans with (y := ((80 # 100) * inject_Z 1000)%Q);
        [discriminate |].
      apply Qmult_le_compat_r; [assumption | discriminate].
    - apply Qle_trans with (y := ((99 # 100) * inject_Z 1000)%Q);
        [| discriminate].
      apply Qmult_le_compat_r; [assumption | discriminate]. }
  unfold Qle; simpl. lia.
Qed.

(** ** Running the operations *)

Create HintDb registry.
#[local] Hint Unfold
  add_model list_models get_model deploy_model fine_tune_model get_metrics
  ModelManager_init list_endpoint finetune_endpoint
  AIUI.ModelManager.add_model AIUI.ModelManager.list_models
  AIUI.ModelManager.get_model AIUI.ModelManager.deploy_model
  AIUI.ModelManager.fine_tune_model AIUI.ModelManager.get_metrics
  AIUI.ModelManager.init AIUI.AIModel_init AIUI.list_models
  AIUI.finetune_model
  App.ModelManager.add_model App.ModelManager.list_models
  App.ModelManager.get_model App.ModelManager.deploy_model
  App.ModelManager.fine_tune_model App.ModelManager.get_metrics
  App.ModelManager.init App.AIModel_init App.get_all_models
  App.start_fine_tuning
  bind ret raise try_except result final add_task
  new_dict new_object getattr set_object set_deployed set_version
  dict_contents dict_mutate dict_setitem dict_getitem
  get_models set_models models_setitem model_json : registry.

(** Unfold a run down to the store it computes. *)
Ltac run := autounfold with registry in *; simpl in *.

Lemma upd_same {A : Type} (l : loc) (a : A) (f : loc -> A) :
  upd l a f l = a.
Proof. unfold upd. now rewrite Nat.eqb_refl. Qed.

Lemma upd_other {A : Type} (l l' : loc) (a : A) (f : loc -> A) :
  l' <> l -> upd l a f l' = f l'.
Proof.
  intros H. unfold upd. destruct (Nat.eqb l' l) eqn:E; auto.
  apply Nat.eqb_eq in E. contradiction.
Qed.

Lemma state_eq_refl (s : State) : state_eq s s.
Proof. repeat split. Qed.

(** [model_json] only reads. *)
Lemma model_json_run (l : loc) (s : State) :
  model_json l s = (inr (snapshot s l), s).
Proof. reflexivity. Qed.

Lemma for_each_model_json (ls : list loc) (s : State) :
  for_each model_json ls s = (inr (map (snapshot s) ls), s).
Proof.
  induction ls as [|l ls IH]; simpl; auto.
  unfold bind. rewrite model_json_run, IH. reflexivity.
Qed.

Lemma list_endpoint_run (i : Impl) (s : State) :
  list_endpoint i s = (inr (map (snapshot s) (dict_values (models s))), s).
Proof.
  destruct i; unfold list_endpoint, AIUI.list_models, App.get_all_models;
    unfold bind; simpl; apply for_each_model_json.
Qed.

Lemma snapshot_state_eq (s t : State) (l : loc) :
  state_eq s t -> snapshot s l = snapshot t l.
Proof.
  intros (Ho & _ & Hd & _ & _). unfold snapshot, metrics_of.
  now rewrite Ho, Hd.
Qed.

(** The client's view is a function of the store and the registry. *)
Lemma list_endpoint_state_eq (i : Impl) (s t : State) :
  state_eq s t -> result (list_endpoint i s) = result (list_endpoint i t).
Proof.
  intros H. rewrite !list_endpoint_run. unfold result; simpl.
  destruct H as (Ho & Hn & Hd & Hnd & Hm). rewrite Hm. f_equal.
  apply map_ext. intros l. apply snapshot_state_eq. repeat split; auto.
Qed.

Lemma deploy_model_found (i : Impl) (id : string) (s : State) (m : loc) :
  dict_get id (models s) = Some m ->
  deploy_model i id s
  = (inr m,
     mkState (upd m (with_deployed true (objects s m)) (objects s))
             (next_object s) (dicts s) (next_dict s) (models s)).
Proof. intros H. destruct i; run; now rewrite H. Qed.

Lemma deploy_model_missing (i : Impl) (id : string) (s : State) :
  dict_get id (models s) = None ->
  deploy_model i id s = (inl (ValueError "Model not found"), s).
Proof. intros H. destruct i; run; now rewrite H. Qed.

Lemma fine_tune_model_missing (i : Impl) (rnd : Q) (id : string)
    (tp : PyDict string) (s : State) :
  dict_get id (models s) = None ->
  fine_tune_model i rnd id tp s = (inl (ValueError "Model not found"), s).
Proof. intros H. destruct i; run; now rewrite H. Qed.

Lemma get_metrics_missing (i : Impl) (id : string) (s : State) :
  dict_get id (models s) = None ->
  get_metrics i id s = (inl (ValueError "Model not found"), s).
Proof. intros H. destruct i; run; now rewrite H. Qed.

Lemma get_metrics_found (i : Impl) (id : string) (s : State) (m : loc) :
  dict_get id (models s) = Some m ->
  get_metrics i id s = (inr (metrics (objects s m)), s).
Proof. intros H. destruct i; run; now rewrite H. Qed.

Lemma AIUI_fine_tune_model_found (rnd : Q) (id : string)
    (tp : PyDict string) (s : State) (m : loc) :
  dict_get id (models s) = Some m ->
  AIUI.ModelManager.fine_tune_model rnd id tp s
  = (inr m,
     match dict_get "new_version" tp with
     | Some v => if str_truthy v then reversioned v m (tuned rnd m s)
                 else tuned rnd m s
     | None => tuned rnd m s
     end).
Proof.
  intros H. run. rewrite H.
  destruct (dict_get "new_version" tp) as [v|]; [| reflexivity].
  destruct (str_truthy v); reflexivity.
Qed.

Lemma App_fine_tune_model_found (rnd : Q) (id : string)
    (tp : PyDict string) (s : State) (m : loc) :
  dict_get id (models s) = Some m ->
  App.ModelManager.fine_tune_model rnd id tp s
  = (inr m,
     match dict_get "new_version" tp with
     | Some v => reversioned v m (tuned rnd m s)
     | None => tuned rnd m s
     end).
Proof.
  intros H. run. rewrite H. unfold dict_contains.
  destruct (dict_get "new_version" tp) as [v|]; reflexivity.
Qed.

(** ** Deploying *)

(** C3: in both files, [deploy_model] raises the not-found error exactly
    when the id is not in the registry; for an id that is, it returns
    that record's instance with [deployed] set and the other fields as
    they were, and a second call returns the same instance and leaves
    the store, the registry and what [GET /models] shows as the first
    call left them. *)
Theorem deploy_model_spec (i : Impl) (id : string) (s : State) :
  ((exists e, result (deploy_model i id s) = inl e)
   <-> dict_get id (models s) = None) /\
  (dict_get id (models s) = None ->
   result (deploy_model i id s) = inl (ValueError "Model not found")) /\
  (forall m, dict_get id (models s) = Some m ->
     let s1 := final (deploy_model i id s) in
     let s2 := final (deploy_model i id s1) in
     result (deploy_model i id s) = inr m /\
     deployed (objects s1 m) = true /\
     model_id (objects s1 m) = model_id (objects s m) /\
     name (objects s1 m) = name (objects s m) /\
     version (objects s1 m) = version (objects s m) /\
     metrics_of s1 m = metrics_of s m /\
     result (deploy_model i id s1) = inr m /\
     state_eq s2 s1 /\
     result (list_endpoint i s2) = result (list_endpoint i s1)).
Proof.
  split; [| split].
  - split.
    + intros [e He]. destruct (dict_get id (models s)) as [m|] eqn:E; auto.
      rewrite (deploy_model_found i id s m E) in He. discriminate.
    + intros E. rewrite (deploy_model_missing i id s E).
      now exists (ValueError "Model not found").
  - intros E. now rewrite (deploy_model_missing i id s E).
  - intros m E. cbv zeta.
    pose proof (deploy_model_found i id s m E) as H1.
    remember (final (deploy_model i id s)) as s1 eqn:Hs1.
    rewrite H1 in Hs1 |- *. unfold final in Hs1. simpl in Hs1.
    assert (E1 : dict_get id (models s1) = Some m) by (subst s1; exact E).
    rewrite (deploy_model_found i id s1 m E1).
    unfold result, final. simpl fst. simpl snd.
    assert (Heq : state_eq
                    (mkState (upd m (with_deployed true (objects s1 m))
                                  (objects s1))
                             (next_object s1) (dicts s1) (next_dict s1)
                             (models s1)) s1).
    { subst s1. unfold state_eq; simpl. repeat split; auto.
      intros l. unfold upd. rewrite Nat.eqb_refl.
      destruct (Nat.eqb l m); reflexivity. }
    repeat split; try apply Heq;
      try (subst s1; unfold metrics_of; simpl; rewrite !upd_same;
           reflexivity).
    apply (list_endpoint_state_eq i _ _ Heq).
Qed.

(** ** Calls on an id that is not there *)

(** C10: in both files, [deploy_model], [fine_tune_model] and
    [get_metrics] on an id that is not in the registry raise the
    not-found error and hand back the very state they were given: the
    registry's mapping and every field of every record are as before. *)
Theorem not_found_leaves_state (i : Impl) (id : string) (s : State)
    (rnd : Q) (tp : PyDict string) :
  dict_get id (models s) = None ->
  deploy_model i id s = (inl (ValueError "Model not found"), s) /\
  fine_tune_model i rnd id tp s = (inl (ValueError "Model not found"), s) /\
  get_metrics i id s = (inl (ValueError "Model not found"), s).
Proof.
  intros H. repeat split.
  - now apply deploy_model_missing.
  - now apply fine_tune_model_missing.
  - now apply get_metrics_missing.
Qed.

Lemma not_found_leaves_state_witness :
  deploy_model AIUI_py "no-such-id" (boot AIUI_py "id-a" "id-b")
  = (inl (ValueError "Model not found"), boot AIUI_py "id-a" "id-b").
Proof.
  apply (not_found_leaves_state AIUI_py "no-such-id"
           (boot AIUI_py "id-a" "id-b") (1 # 2)
           [("new_version", "2.0")]).
  reflexivity.
Defined.

(** Whatever call raises, it raises the not-found error, it is one of
    the three calls above on an absent id, and the state is untouched. *)
Lemma raising_call_leaves_state (i : Impl) (op : Op) (s : State) (e : Exn) :
  op_error i op s = Some e ->
  e = ValueError "Model not found" /\ run_op i op s = s.
Proof.
  destruct op as [u n v | | id | id | rnd id tp | id]; simpl.
  - destruct i; discriminate.
  - destruct i; discriminate.
  - destruct i; discriminate.
  - destruct (dict_get id (models s)) as [m|] eqn:E.
    + rewrite (deploy_model_found i id s m E). discriminate.
    + rewrite (deploy_model_missing i id s E). simpl.
      intros [= <-]. auto.
  - destruct (dict_get id (models s)) as [m|] eqn:E.
    + destruct i; simpl;
        [rewrite (AIUI_fine_tune_model_found rnd id tp s m E)
        | rewrite (App_fine_tune_model_found rnd id tp s m E)];
        discriminate.
    + rewrite (fine_tune_model_missing i rnd id tp s E). simpl.
      intros [= <-]. auto.
  - destruct (dict_get id (models s)) as [m|] eqn:E.
    + rewrite (get_metrics_found i id s m E). discriminate.
    + rewrite (get_metrics_missing i id s E). simpl.
      intros [= <-]. auto.
Qed.

(** ** Fine-tuning and the version *)

(** In [app.py] the version becomes whatever string the key holds. *)
Lemma App_fine_tune_sets_version (rnd : Q) (id : string)
    (tp : PyDict string) (s : State) (m : loc) (v : string) :
  dict_get id (models s) = Some m ->
  dict_get "new_version" tp = Some v ->
  result (App.ModelManager.fine_tune_model rnd id tp s) = inr m /\
  version (objects (final (App.ModelManager.fine_tune_model rnd id tp s)) m)
  = v.
Proof.
  intros E Hv. rewrite (App_fine_tune_model_found rnd id tp s m E), Hv.
  unfold result, final; simpl. now rewrite upd_same.
Qed.

(** In [AIUI.py] it does so for every string but the empty one, which
    leaves the version as it was. *)
Lemma AIUI_fine_tune_sets_version (rnd : Q) (id : string)
    (tp : PyDict string) (s : State) (m : loc) (v : string) :
  dict_get id (models s) = Some m ->
  dict_get "new_version" tp = Some v ->
  result (AIUI.ModelManager.fine_tune_model rnd id tp s) = inr m /\
  version (objects (final (AIUI.ModelManager.fine_tune_model rnd id tp s)) m)
  = if String.eqb v "" then version (objects s m) else v.
Proof.
  intros E Hv. rewrite (AIUI_fine_tune_model_found rnd id tp s m E), Hv.
  unfold result, final, str_truthy.
  destruct (String.eqb v ""); simpl; auto. now rewrite upd_same.
Qed.

(** C1: in [AIUI.py], fine-tuning a seeded record with
    [{"new_version": ""}] leaves its version at ["1.0"], although the
    key is present; [app.py] sets it to the empty string. *)
Theorem AIUI_fine_tune_skips_empty_new_version :
  let s := boot AIUI_py "id-a" "id-b" in
  let tp := [("new_version", "")] in
  dict_get "id-a" (models s) = Some 0 /\
  dict_contains "new_version" tp = true /\
  result (AIUI.ModelManager.fine_tune_model (1 # 2) "id-a" tp s) = inr 0 /\
  version
    (objects (final (AIUI.ModelManager.fine_tune_model (1 # 2) "id-a" tp s))
       0) = "1.0" /\
  version
    (objects (final (App.ModelManager.fine_tune_model (1 # 2) "id-a" tp s))
       0) = "".
Proof. cbv zeta. repeat split. Qed.

(** ** The two files side by side *)

(** Every operation of the two files computes the same result and the
    same state, fine-tuning included unless ["new_version"] is bound to
    the empty string. *)
Lemma implementations_agree (s : State) :
  (forall u n v,
     AIUI.ModelManager.add_model u n v s = App.ModelManager.add_model u n v s)
  /\ AIUI.ModelManager.list_models s = App.ModelManager.list_models s
  /\ (forall id,
        AIUI.ModelManager.get_model id s = App.ModelManager.get_model id s)
  /\ (forall id,
        AIUI.ModelManager.deploy_model id s
        = App.ModelManager.deploy_model id s)
  /\ (forall id,
        AIUI.ModelManager.get_metrics id s
        = App.ModelManager.get_metrics id s)
  /\ (forall rnd id tp,
        dict_get "new_version" tp <> Some "" ->
        AIUI.ModelManager.fine_tune_model rnd id tp s
        = App.ModelManager.fine_tune_model rnd id tp s).
Proof.
  repeat split; try reflexivity.
  intros rnd id tp Hne.
  destruct (dict_get id (models s)) as [m|] eqn:E.
  - rewrite (AIUI_fine_tune_model_found rnd id tp s m E),
            (App_fine_tune_model_found rnd id tp s m E).
    destruct (dict_get "new_version" tp) as [v|]; [| reflexivity].
    unfold str_truthy. destruct (String.eqb v "") eqn:Ev; [| reflexivity].
    apply String.eqb_eq in Ev. subst v. congruence.
  - transitivity (@inl Exn loc (ValueError "Model not found"), s).
    + exact (fine_tune_model_missing AIUI_py rnd id tp s E).
    + symmetry. exact (fine_tune_model_missing app_py rnd id tp s E).
Qed.

(** C2: the two files part on [fine_tune_model] with
    [{"new_version": ""}]: from the same state and the same draw,
    [AIUI.py] leaves a state in which the record's version is ["1.0"]
    and [app.py] one in which it is empty. *)
Theorem fine_tune_model_differs_between_files :
  let s := boot AIUI_py "id-a" "id-b" in
  let tp := [("new_version", "")] in
  boot app_py "id-a" "id-b" = s /\
  final (AIUI.ModelManager.fine_tune_model (1 # 2) "id-a" tp s)
  <> final (App.ModelManager.fine_tune_model (1 # 2) "id-a" tp s).
Proof.
  cbv zeta. split; [reflexivity |].
  intros H. apply (f_equal (fun t => version (objects t 0))) in H.
  discriminate H.
Qed.

(** ** Fine-tuning with no parameters *)

(** C5: in both files, [fine_tune_model] with an empty parameter dict on
    an id of the registry returns that record's instance, leaves its
    version, id, name, deployed flag and metrics dict in place, and
    writes under ["accuracy"] a number of thousandths between 0.80 and
    0.99; the other metrics keys, the other instances and the registry
    are as before.  [rnd] is the value [random()] returned, in [[0, 1)]. *)
Theorem fine_tune_model_no_params (i : Impl) (rnd : Q) (id : string)
    (s : State) (m : loc) :
  dict_get id (models s) = Some m ->
  (0 <= rnd)%Q -> (rnd < 1)%Q ->
  let s' := final (fine_tune_model i rnd id [] s) in
  result (fine_tune_model i rnd id [] s) = inr m /\
  version (objects s' m) = version (objects s m) /\
  (exists a : Q,
     dict_get "accuracy" (metrics_of s' m) = Some a /\
     (80 # 100 <= a)%Q /\ (a <= 99 # 100)%Q /\
     exists k : Z, a = Qmake k 1000) /\
  model_id (objects s' m) = model_id (objects s m) /\
  name (objects s' m) = name (objects s m) /\
  deployed (objects s' m) = deployed (objects s m) /\
  metrics (objects s' m) = metrics (objects s m) /\
  (forall k, k <> "accuracy" ->
     dict_get k (metrics_of s' m) = dict_get k (metrics_of s m)) /\
  (forall l, objects s' l = objects s l) /\
  models s' = models s.
Proof.
  intros E H0 H1. cbv zeta.
  assert (Hrun : fine_tune_model i rnd id [] s = (inr m, tuned rnd m s)).
  { destruct i; simpl;
      [rewrite (AIUI_fine_tune_model_found rnd id [] s m E)
      | rewrite (App_fine_tune_model_found rnd id [] s m E)];
      reflexivity. }
  rewrite Hrun. unfold result, final, tuned, metrics_of; simpl.
  rewrite upd_same.
  repeat split; auto.
  - exists (accuracy rnd). rewrite dict_get_set_eq.
    destruct (accuracy_range rnd H0 H1) as [Hl Hu].
    repeat split; auto.
    rewrite accuracy_thousandths. eauto.
  - intros k Hk. apply dict_get_set_ne. congruence.
Qed.

Lemma fine_tune_model_no_params_witness :
  version
    (objects (final (fine_tune_model AIUI_py (1 # 2) "id-a" []
                       (boot AIUI_py "id-a" "id-b"))) 0)
  = version (objects (boot AIUI_py "id-a" "id-b") 0).
Proof.
  apply (fine_tune_model_no_params AIUI_py (1 # 2) "id-a"
           (boot AIUI_py "id-a" "id-b") 0).
  - reflexivity.
  - discriminate.
  - reflexivity.
Defined.

(** ** Reading the metrics *)




(** ** The fine-tune endpoint *)

(** C9: in both files, the fine-tune handler answers every request with
    its fixed message, touches neither the store nor the registry, and
    leaves one more task on the queue.  That task, whenever it runs and
    whatever it finds, returns normally; run on an id that is not in the
    registry, it leaves the state as it found it. *)
Theorem finetune_endpoint_always_started (i : Impl)
    (request : FineTuneRequest) (bt : BackgroundTasks) (s : State) :
  exists task : Task,
    finetune_endpoint i request bt s
    = (inr (started_message i, bt ++ [task]), s) /\
    (forall rnd s0, result (task rnd s0) = inr tt) /\
    (forall rnd s0,
       dict_get (req_model_id request) (models s0) = None ->
       final (task rnd s0) = s0) /\
    (forall rnd s0,
       final (task rnd s0)
       = final (fine_tune_model i rnd (req_model_id request)
                  (req_tuning_params request) s0)).
Proof.
  destruct request as [id tp].
  destruct i; simpl; eexists; (split; [reflexivity |]); simpl;
    unfold try_except, bind, ret, result, final; repeat split.
  - intros rnd s0.
    destruct (AIUI.ModelManager.fine_tune_model rnd id tp s0) as [[e|l] s1];
      reflexivity.
  - intros rnd s0 E.
    pose proof (fine_tune_model_missing AIUI_py rnd id tp s0 E) as Hm.
    simpl in Hm. now rewrite Hm.
  - intros rnd s0.
    destruct (AIUI.ModelManager.fine_tune_model rnd id tp s0) as [[e|l] s1];
      reflexivity.
  - intros rnd s0.
    destruct (App.ModelManager.fine_tune_model rnd id tp s0) as [[e|l] s1];
      reflexivity.
  - intros rnd s0 E.
    pose proof (fine_tune_model_missing app_py rnd id tp s0 E) as Hm.
    simpl in Hm. now rewrite Hm.
  - intros rnd s0.
    destruct (App.ModelManager.fine_tune_model rnd id tp s0) as [[e|l] s1];
      reflexivity.
Qed.

(** ** Creating records *)

Lemma add_model_run (i : Impl) (u n v : string) (s : State) :
  add_model i u n v s = (inr (next_object s), created u n v s).
Proof. destruct i; reflexivity. Qed.

Lemma boot_run (i : Impl) (u1 u2 : string) :
  boot i u1 u2
  = created u2 "Model B" "1.0"
      (created u1 "Model A" "1.0"
         (mkState (objects empty_state) 0 (dicts empty_state) 0 [])).
Proof. destruct i; reflexivity. Qed.

Lemma list_models_run (i : Impl) (s : State) :
  list_models i s = (inr (dict_values (models s)), s).
Proof. destruct i; reflexivity. Qed.

Lemma get_model_run (i : Impl) (id : string) (s : State) :
  get_model i id s = (inr (dict_get id (models s)), s).
Proof. destruct i; reflexivity. Qed.

(** C4: in both files, when the two ids drawn at construction differ,
    the registry lists exactly two instances, and [GET /models] shows
    them as "Model A" and "Model B", each at version "1.0", not
    deployed, with no metrics. *)
Theorem initial_registry (i : Impl) (u1 u2 : string) :
  u1 <> u2 ->
  let s := boot i u1 u2 in
  result (list_models i s) = inr [0; 1] /\
  result (list_endpoint i s)
  = inr [mkModelJson u1 "Model A" "1.0" false [];
         mkModelJson u2 "Model B" "1.0" false []] /\
  result (get_model i u1 s) = inr (Some 0) /\
  result (get_model i u2 s) = inr (Some 1).
Proof.
  intros Hne. cbv zeta.
  assert (E : String.eqb u2 u1 = false).
  { apply String.eqb_neq. congruence. }
  assert (Hm : models (boot i u1 u2) = [(u1, 0); (u2, 1)]).
  { rewrite boot_run. simpl. now rewrite E. }
  rewrite list_models_run, list_endpoint_run, !get_model_run.
  unfold result. simpl fst. rewrite Hm. simpl.
  rewrite !String.eqb_refl, E. repeat split.
  rewrite boot_run. reflexivity.
Qed.

Lemma initial_registry_witness :
  result (list_endpoint AIUI_py (boot AIUI_py "id-a" "id-b"))
  = inr [mkModelJson "id-a" "Model A" "1.0" false [];
         mkModelJson "id-b" "Model B" "1.0" false []].
Proof.
  apply (initial_registry AIUI_py "id-a" "id-b"). discriminate.
Defined.

(** ** What every call keeps *)

Lemma dict_get_value {V : Type} (k : string) (v : V) (d : PyDict V) :
  dict_get k d = Some v -> In v (dict_values d).
Proof.
  intros H. apply dict_get_In in H. unfold dict_values.
  change v with (snd (k, v)). now apply in_map.
Qed.

Lemma dict_values_set_Forall {V : Type} (P : V -> Prop) (k : string)
    (v : V) (d : PyDict V) :
  P v -> Forall P (dict_values d) -> Forall P (dict_values (dict_set k v d)).
Proof.
  intros Hv. induction d as [|[k' v'] d IH]; simpl; intros H.
  - now constructor.
  - inversion H as [|? ? Hv' Hd]; subst.
    destruct (String.eqb k k'); simpl; constructor; auto.
Qed.

Lemma allocated_lookup (s : State) (id : string) (l : loc) :
  allocated s -> dict_get id (models s) = Some l ->
  l < next_object s /\ metrics (objects s l) < next_dict s.
Proof.
  unfold allocated. rewrite Forall_forall. intros H E.
  apply H. eapply dict_get_value; eauto.
Qed.

Lemma records_kept_refl (s : State) : records_kept s s.
Proof. intros id l E. repeat split; auto. Qed.

Lemma records_kept_trans (s1 s2 s3 : State) :
  records_kept s1 s2 -> records_kept s2 s3 -> records_kept s1 s3.
Proof.
  intros H12 H23 id l E.
  destruct (H12 id l E) as (E2 & Hid & Hn & Hd & Hk).
  destruct (H23 id l E2) as (E3 & Hid' & Hn' & Hd' & Hk').
  repeat split; auto; congruence.
Qed.

Lemma created_keeps_records (u n v : string) (s : State) :
  allocated s -> dict_get u (models s) = None ->
  records_kept s (created u n v s).
Proof.
  intros Ha Hf id l E.
  destruct (allocated_lookup s id l Ha E) as [Hl Hd].
  assert (Hne : u <> id) by congruence.
  unfold created, metrics_of; simpl.
  rewrite dict_get_set_ne by assumption.
  rewrite !upd_other by lia.
  repeat split; auto.
Qed.

Lemma created_allocated (u n v : string) (s : State) :
  allocated s -> allocated (created u n v s).
Proof.
  unfold allocated, created; simpl. intros Ha.
  apply dict_values_set_Forall.
  - rewrite upd_same; simpl. lia.
  - eapply Forall_impl; [| exact Ha]. simpl. intros l [Hl Hd].
    rewrite upd_other by lia. lia.
Qed.

Lemma deployed_keeps_records (m : loc) (s : State) :
  records_kept s
    (mkState (upd m (with_deployed true (objects s m)) (objects s))
             (next_object s) (dicts s) (next_dict s) (models s)).
Proof.
  intros id l E. unfold metrics_of; simpl. unfold upd.
  destruct (Nat.eqb l m) eqn:El.
  - apply Nat.eqb_eq in El. subst l. simpl. repeat split; auto.
  - repeat split; auto.
Qed.

Lemma tuned_keeps_records (rnd : Q) (m : loc) (s : State) :
  records_kept s (tuned rnd m s).
Proof.
  intros id l E. unfold tuned, metrics_of; simpl.
  repeat split; auto.
  intros k Hk. unfold upd.
  destruct (Nat.eqb (metrics (objects s l)) (metrics (objects s m))) eqn:Ed.
  - apply Nat.eqb_eq in Ed. rewrite <- Ed.
    now apply dict_contains_set.
  - exact Hk.
Qed.

Lemma reversioned_keeps_records (v : string) (m : loc) (s : State) :
  records_kept s (reversioned v m s).
Proof.
  intros id l E. unfold reversioned, metrics_of; simpl. unfold upd.
  destruct (Nat.eqb l m) eqn:El.
  - apply Nat.eqb_eq in El. subst l. simpl. repeat split; auto.
  - repeat split; auto.
Qed.

Lemma allocated_same_layout (s s' : State) :
  next_object s' = next_object s -> next_dict s' = next_dict s ->
  models s' = models s ->
  (forall l, metrics (objects s' l) = metrics (objects s l)) ->
  allocated s -> allocated s'.
Proof.
  unfold allocated. intros Ho Hd Hm Hmet Ha. rewrite Ho, Hd, Hm.
  eapply Forall_impl; [| exact Ha]. simpl. intros l. now rewrite Hmet.
Qed.

Lemma with_field_metrics (f : AIModel -> AIModel) (m : loc)
    (objs : loc -> AIModel) :
  metrics (f (objs m)) = metrics (objs m) ->
  forall l, metrics (upd m (f (objs m)) objs l) = metrics (objs l).
Proof.
  intros H l. unfold upd. destruct (Nat.eqb l m) eqn:E; auto.
  apply Nat.eqb_eq in E. now subst l.
Qed.

(** The state [fine_tune_model] leaves for a record that is there. *)
Lemma fine_tune_model_final (i : Impl) (rnd : Q) (id : string)
    (tp : PyDict string) (s : State) (m : loc) :
  dict_get id (models s) = Some m ->
  final (fine_tune_model i rnd id tp s) = tuned rnd m s \/
  exists v, final (fine_tune_model i rnd id tp s)
            = reversioned v m (tuned rnd m s).
Proof.
  intros E. destruct i; simpl.
  - rewrite (AIUI_fine_tune_model_found rnd id tp s m E). unfold final; simpl.
    destruct (dict_get "new_version" tp) as [v|]; [| now left].
    destruct (str_truthy v); [right; eauto | now left].
  - rewrite (App_fine_tune_model_found rnd id tp s m E). unfold final; simpl.
    destruct (dict_get "new_version" tp) as [v|]; [right; eauto | now left].
Qed.

(** C6: in both files, each of the six registry calls, made on a state
    whose instances are allocated and with an id drawn by [add_model]
    that is not yet in use, keeps every record that was present: its id
    is still bound to the same instance, with the same id and name, a
    set deployed flag stays set, and every key of its metrics is still a
    key.  The state it leaves again has its instances allocated. *)
Theorem operations_keep_records (i : Impl) (op : Op) (s : State) :
  allocated s -> fresh_draw op s ->
  records_kept s (run_op i op s) /\ allocated (run_op i op s).
Proof.
  intros Ha Hf.
  destruct op as [u n v | | id | id | rnd id tp | id]; simpl in *.
  - rewrite add_model_run. unfold final; simpl. split.
    + now apply created_keeps_records.
    + now apply created_allocated.
  - rewrite list_models_run. split; [apply records_kept_refl | exact Ha].
  - rewrite get_model_run. split; [apply records_kept_refl | exact Ha].
  - destruct (dict_get id (models s)) as [m|] eqn:E.
    + rewrite (deploy_model_found i id s m E). unfold final; simpl. split.
      * apply deployed_keeps_records.
      * eapply allocated_same_layout; try exact Ha; try reflexivity.
        simpl. now apply with_field_metrics.
    + rewrite (deploy_model_missing i id s E).
      split; [apply records_kept_refl | exact Ha].
  - destruct (dict_get id (models s)) as [m|] eqn:E.
    + assert (Ht : allocated (tuned rnd m s)).
      { eapply allocated_same_layout; try exact Ha; reflexivity. }
      destruct (fine_tune_model_final i rnd id tp s m E) as [-> | [v ->]].
      * split; [apply tuned_keeps_records | exact Ht].
      * split.
        -- eapply records_kept_trans;
             [apply tuned_keeps_records | apply reversioned_keeps_records].
        -- eapply allocated_same_layout; try exact Ht; try reflexivity.
           simpl. now apply with_field_metrics.
    + rewrite (fine_tune_model_missing i rnd id tp s E).
      split; [apply records_kept_refl | exact Ha].
  - destruct (dict_get id (models s)) as [m|] eqn:E.
    + rewrite (get_metrics_found i id s m E).
      split; [apply records_kept_refl | exact Ha].
    + rewrite (get_metrics_missing i id s E).
      split; [apply records_kept_refl | exact Ha].
Qed.

Lemma operations_keep_records_witness :
  allocated
    (run_op AIUI_py (Create "id-c" "Model C" "0.1")
       (boot AIUI_py "id-a" "id-b")).
Proof.
  apply (operations_keep_records AIUI_py (Create "id-c" "Model C" "0.1")
           (boot AIUI_py "id-a" "id-b")).
  - unfold allocated. simpl. repeat constructor.
  - reflexivity.
Defined.

(** ** Ids of created records *)








(** ** The handlers over the registry *)

Lemma get_endpoint_run (i : Impl) (id : string) (s : State) :
  get_endpoint i id s
  = (inr match dict_get id (models s) with
         | None => inl not_found
         | Some m => inr (snapshot s m)
         end, s).
Proof.
  destruct i; unfold get_endpoint, AIUI.get_model, App.get_model_details,
    AIUI.ModelManager.get_model, App.ModelManager.get_model,
    bind, get_models, ret, http_error; simpl;
    destruct (dict_get id (models s)); reflexivity.
Qed.

(** X1: in both files, [GET /models/{model_id}] changes nothing; it
    answers 404 "Model not found" when the id is not in the registry and
    otherwise the five fields of the record, the metrics as they are at
    that moment. *)
Theorem get_endpoint_spec (i : Impl) (id : string) (s : State) :
  final (get_endpoint i id s) = s /\
  result (get_endpoint i id s)
  = inr match dict_get id (models s) with
        | None => inl not_found
        | Some m => inr (snapshot s m)
        end.
Proof. rewrite get_endpoint_run. split; reflexivity. Qed.

Lemma deploy_endpoint_run (i : Impl) (id : string) (s : State) :
  deploy_endpoint i id s
  = match dict_get id (models s) with
    | None => (inr (inl not_found), s)
    | Some m =>
        (inr (inr (mkDeployJson
                     ("Model '" ++ name (objects s m)
                      ++ "' deployed successfully.")
                     (model_id (objects s m)) (name (objects s m))
                     (version (objects s m)) true)),
         final (deploy_model i id s))
    end.
Proof.
  destruct (dict_get id (models s)) as [m|] eqn:E.
  - pose proof (deploy_model_found i id s m E) as H.
    destruct i; simpl in H |- *;
      unfold AIUI.deploy_model, App.deploy_model, try_except_ValueError;
      unfold bind at 1; rewrite H; unfold final; simpl;
      unfold bind, getattr, ret; simpl; rewrite upd_same;
      destruct (objects s m); reflexivity.
  - pose proof (deploy_model_missing i id s E) as H.
    destruct i; simpl in H |- *;
      unfold AIUI.deploy_model, App.deploy_model, try_except_ValueError;
      unfold bind at 1; rewrite H; reflexivity.
Qed.

(** X2: in both files, [POST /deploy/{model_id}] never lets an exception
    of the registry through.  For an id that is not in the registry it
    answers 404 with the registry's own message and changes nothing; for
    one that is, it leaves the state [deploy_model] leaves and answers
    with the record's name inside the message, its id, name and version,
    and [deployed] true. *)
Theorem deploy_endpoint_spec (i : Impl) (id : string) (s : State) :
  (dict_get id (models s) = None ->
   deploy_endpoint i id s = (inr (inl not_found), s)) /\
  (forall m, dict_get id (models s) = Some m ->
     final (deploy_endpoint i id s) = final (deploy_model i id s) /\
     exists j : DeployJson,
       result (deploy_endpoint i id s) = inr (inr j) /\
       message j
       = ("Model '" ++ name (objects s m)
          ++ "' deployed successfully.")%string /\
       d_model_id j = model_id (objects s m) /\
       d_name j = name (objects s m) /\
       d_version j = version (objects s m) /\
       d_deployed j = true) /\
  (exists r, result (deploy_endpoint i id s) = inr r).
Proof.
  rewrite deploy_endpoint_run.
  destruct (dict_get id (models s)) as [m|]; split; [| split | | split].
  - discriminate.
  - intros m' [= <-]. split; [reflexivity |].
    eexists. split; [reflexivity |]. simpl. auto.
  - eexists. reflexivity.
  - reflexivity.
  - discriminate.
  - eexists. reflexivity.
Qed.

(** X3: in both files, [GET /metrics/{model_id}] changes nothing; it
    answers 404 "Model not found" when the id is not in the registry and
    otherwise the id it was asked for with the record's metrics as they
    are at that moment. *)
Theorem metrics_endpoint_spec (i : Impl) (id : string) (s : State) :
  final (metrics_endpoint i id s) = s /\
  result (metrics_endpoint i id s)
  = inr match dict_get id (models s) with
        | None => inl not_found
        | Some m => inr (mkMetricsJson id (metrics_of s m))
        end.
Proof.
  destruct (dict_get id (models s)) as [m|] eqn:E.
  - pose proof (get_metrics_found i id s m E) as H.
    destruct i; simpl in H |- *;
      unfold AIUI.get_metrics, App.get_model_metrics, try_except_ValueError;
      unfold bind at 1 3; rewrite H; split; reflexivity.
  - pose proof (get_metrics_missing i id s E) as H.
    destruct i; simpl in H |- *;
      unfold AIUI.get_metrics, App.get_model_metrics, try_except_ValueError;
      unfold bind at 1 3; rewrite H; split; reflexivity.
Qed.

(** X4: in both files and from any state, the id [add_model] has just
    used looks up the instance it returned, and [GET /models/{id}] shows
    the name and version given, not deployed, with no metrics; this is
    so even when the id was already in use. *)
Theorem add_model_then_get (i : Impl) (u n v : string) (s : State) :
  let s' := final (add_model i u n v s) in
  (exists l, result (add_model i u n v s) = inr l /\
             result (get_model i u s') = inr (Some l)) /\
  result (get_endpoint i u s') = inr (inr (mkModelJson u n v false [])).
Proof.
  cbv zeta. rewrite add_model_run. unfold final, result. simpl fst. simpl snd.
  assert (E : dict_get u (models (created u n v s)) = Some (next_object s)).
  { unfold created; simpl. apply dict_get_set_eq. }
  split.
  - exists (next_object s). split; [reflexivity |].
    rewrite get_model_run. cbn [fst]. now rewrite E.
  - rewrite get_endpoint_run. cbn [fst]. rewrite E.
    unfold snapshot, metrics_of, created; simpl.
    rewrite upd_same. simpl. now rewrite upd_same.
Qed.

(** ** The registry as its clients see it *)

Lemma registry_view_values (s : State) :
  dict_values (registry_view s) = map (snapshot s) (dict_values (models s)).
Proof.
  unfold registry_view, dict_values. rewrite !map_map. reflexivity.
Qed.

Lemma registry_view_get (s : State) (id : string) :
  dict_get id (registry_view s)
  = option_map (snapshot s) (dict_get id (models s)).
Proof.
  unfold registry_view.
  induction (models s) as [|[k l] d IH]; simpl; [reflexivity |].
  destruct (String.eqb id k); [reflexivity | exact IH].
Qed.

(** Two values under different keys are different when no value
    occurs twice. *)
Lemma dict_values_injective {V : Type} (d : PyDict V) (k k' : string)
    (v v' : V) :
  NoDup (dict_values d) ->
  dict_get k d = Some v -> dict_get k' d = Some v' -> k <> k' -> v <> v'.
Proof.
  induction d as [|[k0 v0] d IH]; simpl; [discriminate |].
  intros Hnd Hk Hk' Hne.
  inversion Hnd as [|? ? Hnotin Hnd']; subst.
  destruct (String.eqb k k0) eqn:E; destruct (String.eqb k' k0) eqn:E'.
  - apply String.eqb_eq in E, E'. congruence.
  - injection Hk as <-. intros <-. apply Hnotin.
    eapply dict_get_value; eauto.
  - injection Hk' as <-. intros ->. apply Hnotin.
    eapply dict_get_value; eauto.
  - eauto.
Qed.


(** The view after a change that rewrites the record under [id] and
    leaves the other records of the registry as they were. *)
Lemma view_update (s s' : State) (d : PyDict loc) (id : string) (m : loc)
    (j : ModelJson) :
  NoDup (dict_values d) ->
  dict_get id d = Some m ->
  snapshot s' m = j ->
  (forall l, In l (dict_values d) -> l <> m -> snapshot s' l = snapshot s l) ->
  map (fun kl => (fst kl, snapshot s' (snd kl))) d
  = dict_set id j (map (fun kl => (fst kl, snapshot s (snd kl))) d).
Proof.
  intros Hnd E Hm Hother.
  induction d as [|[k l] d IH]; simpl in *; [discriminate |].
  inversion Hnd as [|? ? Hnotin Hnd']; subst.
  destruct (String.eqb id k) eqn:Ek.
  - injection E as ->. f_equal.
    apply map_ext_in. intros [k' l'] Hin. simpl. f_equal.
    apply Hother.
    + right. change l' with (snd (k', l')). now apply in_map.
    + intros ->. apply Hnotin.
      change m with (snd (k', m)). now apply in_map.
  - f_equal.
    + f_equal. apply Hother; [now left |].
      intros ->. apply Hnotin. eapply dict_get_value; eauto.
    + apply IH; auto.
Qed.

Lemma snapshot_created (u n v : string) (s : State) (l : loc) :
  l < next_object s -> metrics (objects s l) < next_dict s ->
  snapshot (created u n v s) l = snapshot s l.
Proof.
  intros Hl Hd. unfold snapshot, metrics_of, created; simpl.
  rewrite !upd_other by lia. reflexivity.
Qed.

Lemma snapshot_created_new (u n v : string) (s : State) :
  snapshot (created u n v s) (next_object s) = mkModelJson u n v false [].
Proof.
  unfold snapshot, metrics_of, created; simpl.
  rewrite upd_same. simpl. now rewrite upd_same.
Qed.

(** X5: in both files, on a state whose instances are allocated,
    [add_model] acts on what clients see as one dict assignment: the
    new record, not deployed and without metrics, goes under its id, at
    the end when the id is new and in the place of the record that had
    the id otherwise; every other record reads as before. *)
Theorem add_model_view (i : Impl) (u n v : string) (s : State) :
  allocated s ->
  registry_view (final (add_model i u n v s))
  = dict_set u (mkModelJson u n v false []) (registry_view s).
Proof.
  intros Ha. rewrite add_model_run. unfold final. cbn [snd].
  unfold registry_view. unfold created at 2. cbn [models].
  unfold allocated in Ha.
  induction (models s) as [|[k l] d IH]; simpl in *.
  - now rewrite snapshot_created_new.
  - inversion Ha as [|? ? [Hl Hd] Ha']; subst.
    destruct (String.eqb u k); simpl.
    + rewrite snapshot_created_new. f_equal.
      apply map_ext_in. intros [k' l'] Hin. simpl. f_equal.
      rewrite Forall_forall in Ha'.
      destruct (Ha' l') as [Hl' Hd'].
      { change l' with (snd (k', l')). now apply in_map. }
      now apply snapshot_created.
    + rewrite snapshot_created by assumption. f_equal. now apply IH.
Qed.

Lemma add_model_view_witness :
  registry_view
    (final (add_model AIUI_py "id-a" "Model C" "0.1"
              (boot AIUI_py "id-a" "id-b")))
  = [("id-a", mkModelJson "id-a" "Model C" "0.1" false []);
     ("id-b", mkModelJson "id-b" "Model B" "1.0" false [])].
Proof.
  apply (add_model_view AIUI_py "id-a" "Model C" "0.1"
           (boot AIUI_py "id-a" "id-b")).
  unfold allocated. simpl. repeat constructor.
Defined.


(** X6: in both files, on a well-formed state, [deploy_model] on an id
    of the registry acts on what clients see as one dict assignment: the
    record under that id reads as before with [deployed] true, in the
    same place, and every other record reads exactly as before. *)
Theorem deploy_model_view (i : Impl) (id : string) (s : State) (m : loc) :
  well_formed s ->
  dict_get id (models s) = Some m ->
  registry_view (final (deploy_model i id s))
  = dict_set id (json_deployed (snapshot s m)) (registry_view s).
Proof.
  intros (Ha & Hk & Hv & Hm & Hid) E.
  rewrite (deploy_model_found i id s m E). unfold final. cbn [snd].
  unfold registry_view. cbn [models].
  apply view_update with (m := m); auto.
  - unfold snapshot, metrics_of, json_deployed; simpl.
    now rewrite upd_same.
  - intros l _ Hl. unfold snapshot, metrics_of; simpl.
    now rewrite upd_other.
Qed.

Lemma boot_well_formed (i : Impl) (u1 u2 : string) :
  u1 <> u2 -> well_formed (boot i u1 u2).
Proof.
  intros Hne. rewrite boot_run.
  assert (E : String.eqb u2 u1 = false).
  { apply String.eqb_neq. congruence. }
  unfold well_formed, allocated, created; simpl. rewrite E. simpl.
  repeat split.
  - repeat constructor.
  - repeat constructor; simpl; intuition congruence.
  - repeat constructor; simpl; intuition lia.
  - repeat constructor; simpl; intuition lia.
  - repeat constructor.
Qed.

Lemma deploy_model_view_witness :
  registry_view (final (deploy_model app_py "id-b" (boot app_py "id-a" "id-b")))
  = [("id-a", mkModelJson "id-a" "Model A" "1.0" false []);
     ("id-b", mkModelJson "id-b" "Model B" "1.0" true [])].
Proof.
  apply (deploy_model_view app_py "id-b" (boot app_py "id-a" "id-b") 1).
  - apply boot_well_formed. discriminate.
  - reflexivity.
Defined.



(** ** Over the life of a registry *)

Lemma NoDup_snoc {A : Type} (l : list A) (x : A) :
  NoDup l -> ~ In x l -> NoDup (l ++ [x]).
Proof.
  induction l as [|y l IH]; simpl; intros Hnd Hin.
  - repeat constructor. tauto.
  - inversion Hnd as [|? ? Hnotin Hnd']; subst. constructor.
    + rewrite in_app_iff. simpl. intuition congruence.
    + apply IH; tauto.
Qed.

Lemma well_formed_same_layout (s s' : State) :
  next_object s' = next_object s -> next_dict s' = next_dict s ->
  models s' = models s ->
  (forall l, metrics (objects s' l) = metrics (objects s l)) ->
  (forall l, model_id (objects s' l) = model_id (objects s l)) ->
  well_formed s -> well_formed s'.
Proof.
  intros Ho Hd Hmod Hmet Hmid (Ha & Hk & Hv & Hm & Hid).
  unfold well_formed. rewrite Hmod. repeat split; auto.
  - now apply (allocated_same_layout s s').
  - erewrite map_ext; [exact Hm | intros l; apply Hmet].
  - eapply Forall_impl; [| exact Hid]. simpl. intros kl. now rewrite Hmid.
Qed.

Lemma with_field_model_id (f : AIModel -> AIModel) (m : loc)
    (objs : loc -> AIModel) :
  model_id (f (objs m)) = model_id (objs m) ->
  forall l, model_id (upd m (f (objs m)) objs l) = model_id (objs l).
Proof.
  intros H l. unfold upd. destruct (Nat.eqb l m) eqn:E; auto.
  apply Nat.eqb_eq in E. now subst l.
Qed.

Lemma created_well_formed (u n v : string) (s : State) :
  well_formed s -> dict_get u (models s) = None ->
  well_formed (created u n v s).
Proof.
  intros (Ha & Hk & Hv & Hm & Hid) Hf.
  assert (Hall := Ha). unfold allocated in Hall.
  rewrite Forall_forall in Hall.
  assert (Hmodels : models (created u n v s)
                    = models s ++ [(u, next_object s)]).
  { unfold created; simpl. now apply dict_set_fresh. }
  assert (Hold : forall l, In l (dict_values (models s)) ->
                   objects (created u n v s) l = objects s l).
  { intros l Hin. unfold created; simpl. apply upd_other.
    destruct (Hall l Hin). lia. }
  unfold well_formed. repeat split.
  - now apply created_allocated.
  - rewrite Hmodels. unfold dict_keys. rewrite map_app. simpl.
    apply NoDup_snoc; [exact Hk |]. now apply dict_get_keys_None.
  - rewrite Hmodels. unfold dict_values. rewrite map_app. simpl.
    apply NoDup_snoc; [exact Hv |]. intros Hin.
    destruct (Hall _ Hin). lia.
  - rewrite Hmodels. unfold dict_values. rewrite !map_app. cbn [map snd].
    rewrite (map_ext_in
               (fun l => metrics (objects (created u n v s) l))
               (fun l => metrics (objects s l)) (map snd (models s)))
      by (intros l Hin; now rewrite Hold).
    apply NoDup_snoc; [exact Hm |].
    unfold created; cbn [objects]. rewrite upd_same. cbn [metrics].
    intros Hin. apply in_map_iff in Hin. destruct Hin as (l & Hl & Hin).
    destruct (Hall l Hin). lia.
  - rewrite Hmodels. apply Forall_app. split.
    + rewrite Forall_forall in Hid |- *. intros [k l] Hin. cbn [fst snd].
      rewrite Hold; [exact (Hid _ Hin) |].
      unfold dict_values. change l with (snd (k, l)). now apply in_map.
    + repeat constructor. unfold created; simpl. now rewrite upd_same.
Qed.

Lemma run_op_well_formed (i : Impl) (op : Op) (s : State) :
  well_formed s -> fresh_draw op s -> well_formed (run_op i op s).
Proof.
  intros Hw Hf.
  destruct op as [u n v | | id | id | rnd id tp | id]; simpl in *.
  - rewrite add_model_run. now apply created_well_formed.
  - now rewrite list_models_run.
  - now rewrite get_model_run.
  - destruct (dict_get id (models s)) as [m|] eqn:E.
    + rewrite (deploy_model_found i id s m E). unfold final; simpl.
      eapply well_formed_same_layout; try exact Hw; try reflexivity; simpl.
      * now apply with_field_metrics.
      * now apply with_field_model_id.
    + now rewrite (deploy_model_missing i id s E).
  - destruct (dict_get id (models s)) as [m|] eqn:E.
    + assert (Ht : well_formed (tuned rnd m s)).
      { eapply well_formed_same_layout; try exact Hw; reflexivity. }
      destruct (fine_tune_model_final i rnd id tp s m E) as [-> | [v ->]].
      * exact Ht.
      * eapply well_formed_same_layout; try exact Ht; try reflexivity; simpl.
        -- now apply with_field_metrics.
        -- now apply with_field_model_id.
    + now rewrite (fine_tune_model_missing i rnd id tp s E).
  - destruct (dict_get id (models s)) as [m|] eqn:E.
    + now rewrite (get_metrics_found i id s m E).
    + now rewrite (get_metrics_missing i id s E).
Qed.

Lemma run_ops_well_formed (i : Impl) (ops : list Op) (s : State) :
  well_formed s -> fresh_draws i ops s -> well_formed (run_ops i ops s).
Proof.
  revert s. induction ops as [|op ops IH]; simpl; intros s Hw Hf; auto.
  destruct Hf as [Hf Hfs]. apply IH; auto. now apply run_op_well_formed.
Qed.

Lemma well_formed_ids (s : State) :
  well_formed s ->
  map j_model_id (map (snapshot s) (dict_values (models s)))
  = dict_keys (models s).
Proof.
  intros (_ & _ & _ & _ & Hid). unfold dict_values, dict_keys.
  rewrite !map_map. apply map_ext_in. intros kl Hin. simpl.
  rewrite Forall_forall in Hid. now apply Hid.
Qed.

(** X8: in both files, after construction with two different ids and
    any sequence of the six calls in which every id [add_model] draws is
    unused when drawn, the registry is well formed: no two ids share an
    instance, no two instances share a metrics dict, every instance is
    stored under its own id.  So the ids [GET /models] shows are the
    registry's keys, in order, and no id is shown twice. *)
Theorem registry_stays_well_formed (i : Impl) (u1 u2 : string)
    (ops : list Op) :
  u1 <> u2 ->
  fresh_draws i ops (boot i u1 u2) ->
  let s := run_ops i ops (boot i u1 u2) in
  well_formed s /\
  exists js, result (list_endpoint i s) = inr js /\
             map j_model_id js = dict_keys (models s) /\
             NoDup (map j_model_id js).
Proof.
  intros Hne Hf. cbv zeta.
  assert (Hw : well_formed (run_ops i ops (boot i u1 u2))).
  { apply run_ops_well_formed; [now apply boot_well_formed | exact Hf]. }
  split; [exact Hw |].
  rewrite list_endpoint_run. unfold result. cbn [fst].
  eexists. split; [reflexivity |].
  rewrite (well_formed_ids _ Hw). split; [reflexivity |]. apply Hw.
Qed.

Lemma registry_stays_well_formed_witness :
  well_formed
    (run_ops AIUI_py
       [Create "id-c" "Model C" "0.1"; Deploy "id-c";
        FineTune (1 # 2) "id-a" [("new_version", "2.0")]; Deploy "id-x"]
       (boot AIUI_py "id-a" "id-b")).
Proof.
  apply (registry_stays_well_formed AIUI_py "id-a" "id-b"
           [Create "id-c" "Model C" "0.1"; Deploy "id-c";
            FineTune (1 # 2) "id-a" [("new_version", "2.0")];
            Deploy "id-x"]).
  - discriminate.
  - simpl. repeat split.
Defined.

Lemma run_op_keeps_records (i : Impl) (op : Op) (s : State) :
  allocated s -> fresh_draw op s ->
  records_kept s (run_op i op s) /\ allocated (run_op i op s).
Proof.
  intros Ha Hf.
  destruct op as [u n v | | id | id | rnd id tp | id]; simpl in *.
  - rewrite add_model_run. unfold final; simpl. split.
    + now apply created_keeps_records.
    + now apply created_allocated.
  - rewrite list_models_run. split; [apply records_kept_refl | exact Ha].
  - rewrite get_model_run. split; [apply records_kept_refl | exact Ha].
  - destruct (dict_get id (models s)) as [m|] eqn:E.
    + rewrite (deploy_model_found i id s m E). unfold final; simpl. split.
      * apply deployed_keeps_records.
      * eapply allocated_same_layout; try exact Ha; try reflexivity.
        simpl. now apply with_field_metrics.
    + rewrite (deploy_model_missing i id s E).
      split; [apply records_kept_refl | exact Ha].
  - destruct (dict_get id (models s)) as [m|] eqn:E.
    + assert (Ht : allocated (tuned rnd m s)).
      { eapply allocated_same_layout; try exact Ha; reflexivity. }
      destruct (fine_tune_model_final i rnd id tp s m E) as [-> | [v ->]].
      * split; [apply tuned_keeps_records | exact Ht].
      * split.
        -- eapply records_kept_trans;
             [apply tuned_keeps_records | apply reversioned_keeps_records].
        -- eapply allocated_same_layout; try exact Ht; try reflexivity.
           simpl. now apply with_field_metrics.
    + rewrite (fine_tune_model_missing i rnd id tp s E).
      split; [apply records_kept_refl | exact Ha].
  - destruct (dict_get id (models s)) as [m|] eqn:E.
    + rewrite (get_metrics_found i id s m E).
      split; [apply records_kept_refl | exact Ha].
    + rewrite (get_metrics_missing i id s E).
      split; [apply records_kept_refl | exact Ha].
Qed.

(** X9: in both files, over any sequence of the six calls in which every
    id [add_model] draws is unused when drawn, a record present at the
    start is present at the end: its id is bound to the same instance,
    with the same id and name, a set deployed flag is still set, and
    every key of its metrics is still a key. *)
Theorem records_kept_for_life (i : Impl) (ops : list Op) (s : State) :
  allocated s -> fresh_draws i ops s ->
  records_kept s (run_ops i ops s) /\ allocated (run_ops i ops s).
Proof.
  revert s. induction ops as [|op ops IH]; simpl; intros s Ha Hf.
  - split; [apply records_kept_refl | exact Ha].
  - destruct Hf as [Hf Hfs].
    destruct (run_op_keeps_records i op s Ha Hf) as [Hk Ha'].
    destruct (IH _ Ha' Hfs) as [Hk' Ha''].
    split; [| exact Ha'']. eapply records_kept_trans; eauto.
Qed.

Lemma records_kept_for_life_witness :
  allocated
    (run_ops app_py
       [Deploy "id-a"; Create "id-c" "Model C" "0.1";
        FineTune (1 # 3) "id-a" []; GetMetrics "id-a"]
       (boot app_py "id-a" "id-b")).
Proof.
  apply (records_kept_for_life app_py
           [Deploy "id-a"; Create "id-c" "Model C" "0.1";
            FineTune (1 # 3) "id-a" []; GetMetrics "id-a"]
           (boot app_py "id-a" "id-b")).
  - unfold allocated. simpl. repeat constructor.
  - simpl. repeat split.
Defined.

Lemma metrics_shape_set (rnd : Q) (m : PyDict Q) :
  (0 <= rnd)%Q -> (rnd < 1)%Q ->
  metrics_shape m ->
  metrics_shape (dict_set "accuracy" (accuracy rnd) m).
Proof.
  intros H0 H1 Hm. destruct (accuracy_range rnd H0 H1) as [Hl Hu].
  right. exists (accuracy rnd).
  destruct Hm as [-> | (a & -> & _)]; simpl; auto.
Qed.

Lemma metrics_of_tuned (rnd : Q) (m l : loc) (s : State) :
  metrics_of (tuned rnd m s) l
  = if Nat.eqb (metrics (objects s l)) (metrics (objects s m))
    then dict_set "accuracy" (accuracy rnd) (metrics_of s l)
    else metrics_of s l.
Proof.
  unfold metrics_of, tuned, upd; simpl.
  destruct (Nat.eqb (metrics (objects s l)) (metrics (objects s m))) eqn:E;
    [| reflexivity].
  apply Nat.eqb_eq in E. now rewrite E.
Qed.

Lemma metrics_of_same_objects (s s' : State) (l : loc) :
  (forall l, metrics (objects s' l) = metrics (objects s l)) ->
  dicts s' = dicts s ->
  metrics_of s' l = metrics_of s l.
Proof. intros Hm Hd. unfold metrics_of. now rewrite Hm, Hd. Qed.

Lemma run_op_metrics_shape (i : Impl) (op : Op) (s : State) :
  unit_draw op ->
  allocated s ->
  Forall (fun l => metrics_shape (metrics_of s l)) (dict_values (models s)) ->
  allocated (run_op i op s) /\
  Forall (fun l => metrics_shape (metrics_of (run_op i op s) l))
         (dict_values (models (run_op i op s))).
Proof.
  intros Hu Ha Hs.
  destruct op as [u n v | | id | id | rnd id tp | id]; simpl in *.
  - rewrite add_model_run. unfold final. cbn [snd].
    split; [now apply created_allocated |].
    unfold created at 2. cbn [models].
    apply dict_values_set_Forall.
    + left. unfold metrics_of, created; simpl.
      rewrite upd_same. simpl. now rewrite upd_same.
    + unfold allocated in Ha. rewrite Forall_forall in *.
      intros l Hin. destruct (Ha l Hin) as [Hl Hd].
      pose proof (snapshot_created u n v s l Hl Hd) as E.
      apply (f_equal j_metrics) in E. cbn [j_metrics snapshot] in E.
      rewrite E. auto.
  - rewrite list_models_run. auto.
  - rewrite get_model_run. auto.
  - destruct (dict_get id (models s)) as [m|] eqn:E.
    + rewrite (deploy_model_found i id s m E). unfold final. cbn [snd].
      split.
      * eapply allocated_same_layout; try exact Ha; try reflexivity.
        simpl. now apply with_field_metrics.
      * cbn [models]. eapply Forall_impl; [| exact Hs].
        cbv beta. intros l Hl.
        erewrite metrics_of_same_objects; [exact Hl | | reflexivity].
        cbn [objects]. now apply with_field_metrics.
    + rewrite (deploy_model_missing i id s E). auto.
  - destruct Hu as [H0 H1].
    destruct (dict_get id (models s)) as [m|] eqn:E.
    + assert (Ht : allocated (tuned rnd m s)).
      { eapply allocated_same_layout; try exact Ha; reflexivity. }
      assert (Hst : Forall (fun l => metrics_shape
                                       (metrics_of (tuned rnd m s) l))
                           (dict_values (models s))).
      { eapply Forall_impl; [| exact Hs]. cbv beta. intros l Hl.
        rewrite metrics_of_tuned.
        destruct (Nat.eqb _ _); [now apply metrics_shape_set | exact Hl]. }
      destruct (fine_tune_model_final i rnd id tp s m E) as [-> | [v ->]].
      * split; [exact Ht | exact Hst].
      * split.
        -- eapply allocated_same_layout; try exact Ht; try reflexivity.
           simpl. now apply with_field_metrics.
        -- cbn [models reversioned tuned].
           eapply Forall_impl; [| exact Hst]. cbv beta. intros l Hl.
           erewrite metrics_of_same_objects; [exact Hl | | reflexivity].
           cbn [objects]. now apply with_field_metrics.
    + rewrite (fine_tune_model_missing i rnd id tp s E). auto.
  - destruct (dict_get id (models s)) as [m|] eqn:E.
    + rewrite (get_metrics_found i id s m E). auto.
    + rewrite (get_metrics_missing i id s E). auto.
Qed.

(** X10: in both files, after construction and any sequence of the six
    calls in which every fine-tune draws its [random()] from [[0, 1)],
    the metrics of every record [GET /models] shows are either empty or
    the single entry ["accuracy"] with a value between 0.80 and 0.99. *)
Theorem metrics_stay_in_shape (i : Impl) (u1 u2 : string) (ops : list Op) :
  Forall unit_draw ops ->
  exists js,
    result (list_endpoint i (run_ops i ops (boot i u1 u2))) = inr js /\
    Forall (fun j => metrics_shape (j_metrics j)) js.
Proof.
  intros Hu. rewrite list_endpoint_run. unfold result. cbn [fst].
  eexists. split; [reflexivity |].
  rewrite Forall_map. cbn [snapshot j_metrics].
  assert (H0 : allocated (boot i u1 u2) /\
               Forall (fun l => metrics_shape (metrics_of (boot i u1 u2) l))
                      (dict_values (models (boot i u1 u2)))).
  { rewrite boot_run. unfold allocated, created; simpl.
    destruct (String.eqb u2 u1); simpl; split; repeat constructor. }
  revert H0. generalize (boot i u1 u2) as s.
  induction Hu as [|op ops Hop Hops IH]; simpl; intros s [Ha Hs].
  - exact Hs.
  - apply IH. now apply run_op_metrics_shape.
Qed.

Lemma metrics_stay_in_shape_witness :
  exists js,
    result
      (list_endpoint AIUI_py
         (run_ops AIUI_py
            [FineTune (1 # 2) "id-a" []; FineTune (1 # 4) "id-a" []]
            (boot AIUI_py "id-a" "id-b"))) = inr js /\
    Forall (fun j => metrics_shape (j_metrics j)) js.
Proof.
  apply (metrics_stay_in_shape AIUI_py "id-a" "id-b"
           [FineTune (1 # 2) "id-a" []; FineTune (1 # 4) "id-a" []]).
  repeat constructor; discriminate.
Defined.

(** X14: in both files, on a well-formed state, [GET /models] and
    [GET /models/{model_id}] agree: every record the list shows is what
    the lookup of its own id answers, and every record a lookup answers
    is in the list, under the id asked for. *)
Theorem listed_records_are_found (i : Impl) (s : State) :
  well_formed s ->
  exists js,
    result (list_endpoint i s) = inr js /\
    (forall j, In j js ->
       result (get_endpoint i (j_model_id j) s) = inr (inr j)) /\
    (forall id j,
       result (get_endpoint i id s) = inr (inr j) ->
       In j js /\ j_model_id j = id).
Proof.
  intros (Ha & Hk & Hv & Hm & Hid).
  rewrite list_endpoint_run. unfold result. cbn [fst].
  eexists. split; [reflexivity |].
  rewrite Forall_forall in Hid. split.
  - intros j Hin. apply in_map_iff in Hin. destruct Hin as (l & <- & Hin).
    unfold dict_values in Hin. apply in_map_iff in Hin.
    destruct Hin as ([k l'] & Hl & Hin). simpl in Hl. subst l'.
    rewrite get_endpoint_run. cbn [fst snapshot j_model_id].
    pose proof (Hid _ Hin) as Hkl. cbn [fst snd] in Hkl. rewrite Hkl.
    now rewrite (dict_In_get k l (models s) Hk Hin).
  - intros id j. rewrite get_endpoint_run. cbn [fst].
    destruct (dict_get id (models s)) as [m|] eqn:E; [| discriminate].
    intros [= <-]. split.
    + apply in_map. eapply dict_get_value; eauto.
    + cbn [snapshot j_model_id]. apply (Hid (id, m)).
      now apply dict_get_In.
Qed.

Lemma listed_records_are_found_witness :
  exists js,
    result (list_endpoint app_py (boot app_py "id-a" "id-b")) = inr js /\
    (forall j, In j js ->
       result (get_endpoint app_py (j_model_id j) (boot app_py "id-a" "id-b"))
       = inr (inr j)).
Proof.
  destruct (listed_records_are_found app_py (boot app_py "id-a" "id-b"))
    as (js & Hl & Hf & _).
  - apply boot_well_formed. discriminate.
  - exists js. split; assumption.
Defined.

(** ** How calls compose *)

Lemma dict_set_set {V : Type} (k : string) (v v' : V) (d : PyDict V) :
  dict_set k v' (dict_set k v d) = dict_set k v' d.
Proof.
  induction d as [|[k0 v0] d IH]; simpl.
  - now rewrite String.eqb_refl.
  - destruct (String.eqb k k0) eqn:E; simpl; rewrite E; [reflexivity |].
    now rewrite IH.
Qed.

(** The state [fine_tune_model] leaves, in one expression. *)
Lemma fine_tune_model_run (i : Impl) (rnd : Q) (id : string)
    (tp : PyDict string) (s : State) :
  final (fine_tune_model i rnd id tp s)
  = match dict_get id (models s) with
    | None => s
    | Some m =>
        match version_to_set i tp with
        | Some v => reversioned v m (tuned rnd m s)
        | None => tuned rnd m s
        end
    end.
Proof.
  destruct (dict_get id (models s)) as [m|] eqn:E.
  - destruct i; simpl;
      [rewrite (AIUI_fine_tune_model_found rnd id tp s m E)
      | rewrite (App_fine_tune_model_found rnd id tp s m E)];
      unfold final; cbn [snd];
      destruct (dict_get "new_version" tp) as [v|]; try reflexivity.
    destruct (str_truthy v); reflexivity.
  - now rewrite (fine_tune_model_missing i rnd id tp s E).
Qed.

Lemma deploy_model_final (i : Impl) (id : string) (s : State) :
  final (deploy_model i id s)
  = match dict_get id (models s) with
    | None => s
    | Some m =>
        mkState (upd m (with_deployed true (objects s m)) (objects s))
                (next_object s) (dicts s) (next_dict s) (models s)
    end.
Proof.
  destruct (dict_get id (models s)) as [m|] eqn:E.
  - now rewrite (deploy_model_found i id s m E).
  - now rewrite (deploy_model_missing i id s E).
Qed.

(** Decide every comparison of locations in sight. *)
Ltac locations :=
  unfold upd; simpl;
  repeat match goal with
         | |- context [Nat.eqb ?a ?b] =>
             destruct (Nat.eqb_spec a b); subst; simpl in *
         | H : context [Nat.eqb ?a ?b] |- _ =>
             destruct (Nat.eqb_spec a b); subst; simpl in *
         end;
  try reflexivity; try congruence.

(** X11: in both files, deploying one id and fine-tuning another (or the
    same) id give the same state in either order, whether or not the ids
    are in the registry: the instances, the dicts and the registry are
    equal location by location. *)
Theorem deploy_and_fine_tune_commute (i : Impl) (rnd : Q)
    (id1 id2 : string) (tp : PyDict string) (s : State) :
  state_eq
    (final (fine_tune_model i rnd id2 tp (final (deploy_model i id1 s))))
    (final (deploy_model i id1 (final (fine_tune_model i rnd id2 tp s)))).
Proof.
  rewrite !fine_tune_model_run, !deploy_model_final.
  destruct (dict_get id1 (models s)) as [m1|] eqn:E1;
    destruct (dict_get id2 (models s)) as [m2|] eqn:E2;
    try destruct (version_to_set i tp) as [v|];
    cbn [models reversioned tuned]; rewrite ?E1, ?E2;
    unfold state_eq, reversioned, tuned, metrics_of; simpl;
    repeat split; intros l; locations.
Qed.

(** X15: in both files, fine-tuning the same id twice with the same
    parameters leaves the state one fine-tune with the second draw
    leaves: the second accuracy replaces the first under the same key. *)
Theorem fine_tune_twice_keeps_last (i : Impl) (rnd1 rnd2 : Q)
    (id : string) (tp : PyDict string) (s : State) :
  state_eq
    (final (fine_tune_model i rnd2 id tp
              (final (fine_tune_model i rnd1 id tp s))))
    (final (fine_tune_model i rnd2 id tp s)).
Proof.
  rewrite !fine_tune_model_run.
  destruct (dict_get id (models s)) as [m|] eqn:E;
    try destruct (version_to_set i tp) as [v|];
    cbn [models reversioned tuned]; rewrite ?E;
    unfold state_eq, reversioned, tuned, metrics_of; simpl;
    repeat split; intros l; locations;
    now rewrite dict_set_set.
Qed.

(** ** Constructing an instance around a given dict *)

(** X12: [AIModel.__init__] called with a metrics dict returns a new
    instance, not deployed, whose metrics read as that dict reads.  In
    [AIUI.py] the instance always keeps the caller's dict itself; in
    [app.py] it keeps it only when the dict is not empty, and for an
    empty dict it gets a new dict of its own, so that what is later
    written to the instance's metrics does not show in the caller's
    dict.  Called with no dict, both files give the instance a new empty
    dict. *)
Theorem AIModel_init_metrics (i : Impl) (id n v : string) (s : State) :
  (forall d,
     let r := AIModel_init i id n v (Some d) s in
     let l := next_object s in
     result r = inr l /\
     deployed (objects (final r) l) = false /\
     metrics_of (final r) l = dicts s d /\
     metrics (objects (final r) l)
     = match i with
       | AIUI_py => d
       | app_py => if dict_truthy (dicts s d) then d else next_dict s
       end) /\
  (let r := AIModel_init i id n v None s in
   let l := next_object s in
   result r = inr l /\
   metrics (objects (final r) l) = next_dict s /\
   metrics_of (final r) l = []) /\
  (forall d f,
     d < next_dict s -> dicts s d = [] ->
     let r := App.AIModel_init id n v (Some d) s in
     let s' := final (dict_mutate (metrics (objects (final r) (next_object s)))
                        f (final r)) in
     dicts s' d = [] /\ metrics_of s' (next_object s) = f []).
Proof.
  split; [| split].
  - intros d. cbv zeta. destruct i; simpl AIModel_init.
    + unfold AIUI.AIModel_init, bind, ret, new_object, result, final,
        metrics_of, upd; simpl. rewrite Nat.eqb_refl. auto.
    + unfold App.AIModel_init, bind, ret, dict_contents, new_dict,
        new_object, result, final, metrics_of, upd; simpl.
      destruct (dicts s d) as [|kv m] eqn:E; simpl;
        rewrite ?Nat.eqb_refl; simpl; rewrite ?Nat.eqb_refl; auto.
  - cbv zeta. destruct i; simpl AIModel_init;
      unfold AIUI.AIModel_init, App.AIModel_init, bind, ret, new_dict,
        new_object, result, final, metrics_of, upd; simpl;
      rewrite !Nat.eqb_refl; simpl; rewrite ?Nat.eqb_refl; auto.
  - intros d f Hd E. cbv zeta.
    unfold App.AIModel_init, bind, ret, dict_contents, dict_mutate, new_dict,
      new_object, result, final, metrics_of, upd; simpl.
    rewrite E. simpl. rewrite !Nat.eqb_refl. simpl.
    rewrite ?Nat.eqb_refl.
    destruct (Nat.eqb_spec d (next_dict s)); [lia | auto].
Qed.

Lemma AIModel_init_metrics_witness :
  let s := boot app_py "id-a" "id-b" in
  let r := App.AIModel_init "id-c" "Model C" "0.1" (Some 0) s in
  let s' := final (dict_mutate (metrics (objects (final r) (next_object s)))
                     (dict_set "accuracy" (9 # 10)%Q) (final r)) in
  dicts s' 0 = [] /\
  metrics_of s' (next_object s) = [("accuracy", (9 # 10)%Q)].
Proof.
  cbv zeta.
  apply (proj2 (proj2 (AIModel_init_metrics app_py "id-c" "Model C" "0.1"
                         (boot app_py "id-a" "id-b")))
           0 (dict_set "accuracy" (9 # 10)%Q)).
  - simpl. lia.
  - reflexivity.
Defined.

(** ** Rounding the accuracy *)






(** ** Which call changes which field *)

(** X16: in both files, on a state whose instances are allocated and
    with an unused id for [add_model], a call changes the version or the
    metrics of a record of the registry only if it is a fine-tune, and
    its deployed flag only if it is a deploy; its id, name and metrics
    dict are changed by no call. *)
Theorem only_fine_tune_and_deploy_write (i : Impl) (op : Op) (s : State)
    (id : string) (l : loc) :
  allocated s -> fresh_draw op s ->
  dict_get id (models s) = Some l ->
  let s' := run_op i op s in
  model_id (objects s' l) = model_id (objects s l) /\
  name (objects s' l) = name (objects s l) /\
  metrics (objects s' l) = metrics (objects s l) /\
  (match op with FineTune _ _ _ => True | _ =>
     version (objects s' l) = version (objects s l) /\
     metrics_of s' l = metrics_of s l
   end) /\
  (match op with Deploy _ => True | _ =>
     deployed (objects s' l) = deployed (objects s l)
   end).
Proof.
  intros Ha Hf E. cbv zeta.
  destruct (allocated_lookup s id l Ha E) as [Hl Hd].
  destruct op as [u n v | | id' | id' | rnd id' tp | id']; simpl in *.
  - rewrite add_model_run. unfold final, created, metrics_of; simpl.
    rewrite !upd_other by lia. repeat split.
  - rewrite list_models_run. repeat split.
  - rewrite get_model_run. repeat split.
  - rewrite deploy_model_final.
    destruct (dict_get id' (models s)) as [m|]; [| repeat split].
    unfold metrics_of; simpl. repeat split; auto; locations.
  - rewrite fine_tune_model_run.
    destruct (dict_get id' (models s)) as [m|]; [| repeat split].
    destruct (version_to_set i tp) as [v|];
      unfold reversioned, tuned; simpl; repeat split; auto; locations.
  - destruct (dict_get id' (models s)) as [m|] eqn:E'.
    + rewrite (get_metrics_found i id' s m E'). repeat split.
    + rewrite (get_metrics_missing i id' s E'). repeat split.
Qed.

Lemma only_fine_tune_and_deploy_write_witness :
  let s := boot AIUI_py "id-a" "id-b" in
  let s' := run_op AIUI_py (Deploy "id-a") s in
  version (objects s' 0) = version (objects s 0) /\
  metrics_of s' 0 = metrics_of s 0.
Proof.
  cbv zeta.
  apply (only_fine_tune_and_deploy_write AIUI_py (Deploy "id-a")
           (boot AIUI_py "id-a" "id-b") "id-a" 0).
  - unfold allocated. simpl. repeat constructor.
  - exact I.
  - reflexivity.
Defined.
